(** * Codacy backend plugin: instance registry and findings aggregation

    A shallow embedding of [codacyInfoProvider.ts]: the configuration
    registry ([CodacyConfig]) and the provider that queries a Codacy
    instance and averages its repository metrics
    ([DefaultCodacyInfoProvider]).

    JavaScript numbers are IEEE 754 binary64 values and are modelled by
    Rocq's primitive floats; JSON payloads are modelled by an inductive
    type of JSON values with the JavaScript rules for truthiness,
    property reads, [for ... in], [+] and [/] written out. *)

From Stdlib Require Import String Ascii List Bool ZArith NArith Lia.
From Stdlib Require Import DecimalString Floats.
From Stdlib Require DecimalPos DecimalN.
Import ListNotations.

Set Warnings "-register-all,-inexact-float".
Open Scope string_scope.

(** ** Exceptions and results *)

(** What a [throw] (or a rejected promise) carries. *)
Inductive exn : Type :=
| Error (message : string)          (* [throw new Error(message)] *)
| TypeError (message : string)      (* property read on [undefined] or [null] *)
| FetchError (message : string).    (* [fetch] or [response.json()] rejected *)

Inductive result (A : Type) : Type :=
| Ok (a : A)
| Throw (e : exn).
Arguments Ok {A} a.
Arguments Throw {A} e.

Definition result_bind {A B} (r : result A) (f : A -> result B) : result B :=
  match r with
  | Ok a => f a
  | Throw e => Throw e
  end.

(** Truthiness of a [string | undefined]: [undefined] and the empty string
    are falsy. *)
Definition truthy_str (s : option string) : bool :=
  match s with
  | Some s => negb (s =? "")
  | None => false
  end.

(** ** Configuration registry *)

(** [CodacyInstanceConfig] *)
Record CodacyInstanceConfig : Type := {
  name : string;
  baseUrl : string;
  externalBaseUrl : option string;
  apiKey : string
}.

(** The [codacy] block of the backend configuration, as declared in
    [config.d.ts]: the value configured for each key, [None] when the key
    is missing. An entry of [instances] has the required strings [name],
    [baseUrl], [apiKey] and the optional [externalBaseUrl]. *)
Record InstanceBlock : Type := {
  block_name : string;
  block_baseUrl : string;
  block_externalBaseUrl : option string;
  block_apiKey : string
}.

Record CodacyBlock : Type := {
  top_baseUrl : option string;
  top_externalBaseUrl : option string;
  top_apiKey : option string;
  top_instances : option (list InstanceBlock)
}.

(** The root configuration; [codacy] is optional in [config.d.ts]. *)
Record Config : Type := {
  codacy : option CodacyBlock
}.

Definition DEFAULT_CODACY_NAME : string := "default".

Module CodacyConfig.

(** The class holds one field, [instances]. *)
Definition t : Type := list CodacyInstanceConfig.

(** [config.getConfig('codacy')] throws when the key is missing. *)
Definition getConfig_codacy (config : Config) : result CodacyBlock :=
  match codacy config with
  | Some c => Ok c
  | None => Throw (Error "Missing required config value at 'codacy'")
  end.

(** The reader of [@backstage/config] refuses the empty string: both
    [getOptionalString] and [getString] throw a [TypeError] that names the
    key; [getOptionalString] returns [undefined] for a missing key. *)
Definition invalid_type (key : string) : exn :=
  TypeError ("Invalid type in config for key '" ++ key
             ++ "', got empty-string, wanted string").

Definition getOptionalString (key : string) (v : option string)
  : result (option string) :=
  match v with
  | Some s => if s =? "" then Throw (invalid_type key) else Ok (Some s)
  | None => Ok None
  end.

Definition getString (key : string) (v : string) : result string :=
  if v =? "" then Throw (invalid_type key) else Ok v.

(** The key of a field of the entry [i] of [instances]. *)
Definition instance_key (i : nat) (field : string) : string :=
  "codacy.instances[" ++ NilZero.string_of_uint (Nat.to_uint i) ++ "]."
  ++ field.

(** The callback of [map]: the entry [c], at index [i], read into a
    record. *)
Definition read_instance (i : nat) (c : InstanceBlock)
  : result CodacyInstanceConfig :=
  result_bind (getString (instance_key i "name") (block_name c))
    (fun name =>
  result_bind (getString (instance_key i "baseUrl") (block_baseUrl c))
    (fun baseUrl =>
  result_bind (getOptionalString (instance_key i "externalBaseUrl")
                 (block_externalBaseUrl c))
    (fun externalBaseUrl =>
  result_bind (getString (instance_key i "apiKey") (block_apiKey c))
    (fun apiKey =>
  Ok {| name := name; baseUrl := baseUrl;
        externalBaseUrl := externalBaseUrl; apiKey := apiKey |})))).

(** [array.map(callback)], stopped by the first entry that throws. *)
Fixpoint read_instances (i : nat) (cs : list InstanceBlock)
  : result (list CodacyInstanceConfig) :=
  match cs with
  | [] => Ok []
  | c :: rest =>
      result_bind (read_instance i c) (fun r =>
      result_bind (read_instances (S i) rest) (fun rs => Ok (r :: rs)))
  end.

Definition conflict_message : string :=
  "Found both a named codacy instance with name " ++ DEFAULT_CODACY_NAME
  ++ " and top level baseUrl or apiKey config. Use only one style of config.".

Definition partial_message : string :=
  "Found partial default codacy config. All (or none) of baseUrl and apiKey must be provided.".

(** [baseUrl && apiKey]: both values when both are truthy. *)
Definition unnamedAllPresent (baseUrl apiKey : option string)
  : option (string * string) :=
  match baseUrl, apiKey with
  | Some b, Some k =>
      if truthy_str (Some b) && truthy_str (Some k) then Some (b, k) else None
  | _, _ => None
  end.

Definition fromConfig (config : Config) : result t :=
  result_bind (getConfig_codacy config) (fun codacyConfig =>
  (* load all named instance config *)
  result_bind
    match top_instances codacyConfig with
    | Some cs => read_instances 0 cs
    | None => Ok []
    end (fun namedInstanceConfig =>
  (* load unnamed default config *)
  let hasNamedDefault :=
    existsb (fun x => name x =? DEFAULT_CODACY_NAME) namedInstanceConfig in
  result_bind (getOptionalString "codacy.baseUrl"
                 (top_baseUrl codacyConfig)) (fun baseUrl =>
  result_bind (getOptionalString "codacy.externalBaseUrl"
                 (top_externalBaseUrl codacyConfig)) (fun externalBaseUrl =>
  result_bind (getOptionalString "codacy.apiKey"
                 (top_apiKey codacyConfig)) (fun apiKey =>
  if hasNamedDefault &&
     (truthy_str baseUrl || truthy_str externalBaseUrl || truthy_str apiKey)
  then Throw (Error conflict_message)
  else
    let unnamedNonePresent :=
      negb (truthy_str baseUrl) && negb (truthy_str apiKey) in
    match unnamedAllPresent baseUrl apiKey with
    | None =>
        if unnamedNonePresent then Ok namedInstanceConfig
        else Throw (Error partial_message)
    | Some (b, k) =>
        let unnamedInstanceConfig :=
          [ {| name := DEFAULT_CODACY_NAME; baseUrl := b;
               externalBaseUrl := externalBaseUrl; apiKey := k |} ] in
        Ok (namedInstanceConfig ++ unnamedInstanceConfig)%list
    end))))).

Definition no_default_message : string :=
  "Couldn't find a default codacy instance in the config. Either configure an instance with name "
  ++ DEFAULT_CODACY_NAME ++ " or add a prefix to your annotation value.".

Definition not_found_message (codacyName : string) : string :=
  "Couldn't find a codacy instance in the config with name " ++ codacyName.

(** [this.instances.find(c => c.name === n)] *)
Definition find_instance (instances : t) (n : string)
  : option CodacyInstanceConfig :=
  find (fun c => name c =? n) instances.

(** [getInstanceConfig({ codacyName })]; [None] is an omitted name. *)
Definition getInstanceConfig (instances : t) (codacyName : option string)
  : result CodacyInstanceConfig :=
  let use_default :=
    match codacyName with
    | Some n => negb (truthy_str codacyName) || (n =? DEFAULT_CODACY_NAME)
    | None => true
    end in
  match use_default, codacyName with
  | false, Some n =>
      (* A name is provided, look it up. *)
      match find_instance instances n with
      | None => Throw (Error (not_found_message n))
      | Some instanceConfig => Ok instanceConfig
      end
  | _, _ =>
      (* no name provided, use default *)
      match find_instance instances DEFAULT_CODACY_NAME with
      | None => Throw (Error no_default_message)
      | Some instanceConfig => Ok instanceConfig
      end
  end.

End CodacyConfig.

(** ** JSON values and the JavaScript operations applied to them *)

(** A decoded JSON document. The members of [JObj] are the own properties
    of the parsed object in creation order, with distinct keys. *)
Inductive json : Type :=
| JNull
| JBool (b : bool)
| JNum (x : float)
| JStr (s : string)
| JArr (items : list json)
| JObj (members : list (string * json)).

(** A JavaScript value read from a payload: [None] is [undefined]. *)
Definition value : Type := option json.

Definition float_of_nat (n : nat) : float :=
  PrimFloat.of_uint63 (Uint63.of_Z (Z.of_nat n)).

(** ToBoolean *)
Definition truthy (v : value) : bool :=
  match v with
  | None => false
  | Some JNull => false
  | Some (JBool b) => b
  | Some (JNum x) => negb (x =? 0)%float && negb (PrimFloat.is_nan x)
  | Some (JStr s) => negb (s =? "")
  | Some (JArr _) => true
  | Some (JObj _) => true
  end.

(** Array-index property keys: the canonical decimal strings of the
    integers below [2^32 - 1]. *)
Definition index_key (n : N) : string :=
  NilZero.string_of_uint (N.to_uint n).

Definition array_index (k : string) : option N :=
  match NilZero.uint_of_string k with
  | Some u =>
      let n := N.of_uint u in
      if (index_key n =? k) && (n <? 4294967295)%N then Some n else None
  | None => None
  end.

Fixpoint assoc (k : string) (members : list (string * json)) : value :=
  match members with
  | [] => None
  | (k', v) :: rest => if k' =? k then Some v else assoc k rest
  end.

(** [o[k]] on a value that is neither [undefined] nor [null], for the keys
    this program reads: [data], [length], the metric and counter names, and
    the keys a [for ... in] yields. None of them is inherited from a
    prototype. *)
Definition get_own (o : json) (k : string) : value :=
  match o with
  | JObj members => assoc k members
  | JArr items =>
      if k =? "length" then Some (JNum (float_of_nat (length items)))
      else match array_index k with
           | Some n => nth_error items (N.to_nat n)
           | None => None
           end
  | JStr s =>
      if k =? "length" then Some (JNum (float_of_nat (String.length s)))
      else match array_index k with
           | Some n =>
               match String.get (N.to_nat n) s with
               | Some c => Some (JStr (String c EmptyString))
               | None => None
               end
           | None => None
           end
  | JNull => None
  | JBool _ => None
  | JNum _ => None
  end.

(** A property read [v.k]: a [TypeError] on [undefined] and [null]. *)
Definition get (v : value) (k : string) : result value :=
  match v with
  | None =>
      Throw (TypeError
               ("Cannot read properties of undefined (reading '" ++ k ++ "')"))
  | Some JNull =>
      Throw (TypeError
               ("Cannot read properties of null (reading '" ++ k ++ "')"))
  | Some o => Ok (get_own o k)
  end.

Fixpoint insert_index (n : N) (l : list N) : list N :=
  match l with
  | [] => [n]
  | m :: rest => if (n <=? m)%N then n :: l else m :: insert_index n rest
  end.

Fixpoint filter_indices (keys : list string) : list N :=
  match keys with
  | [] => []
  | k :: rest =>
      match array_index k with
      | Some n => n :: filter_indices rest
      | None => filter_indices rest
      end
  end.

(** Own property keys of an ordinary object: array indices in ascending
    order, then the other keys in creation order. *)
Definition own_keys (keys : list string) : list string :=
  (map index_key (fold_right insert_index [] (filter_indices keys))
   ++ filter (fun k => match array_index k with
                       | Some _ => false
                       | None => true
                       end) keys)%list.

(** The keys enumerated by [for (const i in v)]. *)
Definition for_in_keys (v : value) : list string :=
  match v with
  | Some (JArr items) =>
      map (fun i => index_key (N.of_nat i)) (seq 0 (length items))
  | Some (JStr s) =>
      map (fun i => index_key (N.of_nat i)) (seq 0 (String.length s))
  | Some (JObj members) => own_keys (map fst members)
  | _ => []
  end.

(** The two conversions between numbers and strings belong to the
    JavaScript engine: [Number::toString] and [StringToNumber]. *)
Record runtime : Type := {
  number_to_string : float -> string;
  string_to_number : string -> float
}.

Section Coercions.

Variable rt : runtime.

Definition cannot_convert : exn :=
  TypeError "Cannot convert object to primitive value".

(** ToString (of ToPrimitive): an array joins its elements with commas,
    [null] elements giving the empty string; a plain object gives
    [[object Object]], unless it has an own member [toString], which a JSON
    value cannot make callable: the conversion then throws a [TypeError]. *)
Fixpoint to_string (v : json) : result string :=
  match v with
  | JNull => Ok "null"
  | JBool b => Ok (if b then "true" else "false")
  | JNum x => Ok (number_to_string rt x)
  | JStr s => Ok s
  | JArr items =>
      (fix join (l : list json) : result string :=
         match l with
         | [] => Ok ""
         | x :: rest =>
             match match x with JNull => Ok "" | _ => to_string x end with
             | Throw e => Throw e
             | Ok sx =>
                 match rest with
                 | [] => Ok sx
                 | _ :: _ =>
                     match join rest with
                     | Throw e => Throw e
                     | Ok sr => Ok (sx ++ "," ++ sr)
                     end
                 end
             end
         end) items
  | JObj members =>
      match assoc "toString" members with
      | Some _ => Throw cannot_convert
      | None => Ok "[object Object]"
      end
  end.

(** ToNumber *)
Definition to_number (v : value) : result float :=
  match v with
  | None => Ok PrimFloat.nan
  | Some JNull => Ok 0%float
  | Some (JBool b) => Ok (if b then 1%float else 0%float)
  | Some (JNum x) => Ok x
  | Some (JStr s) => Ok (string_to_number rt s)
  | Some (JArr items) =>
      result_bind (to_string (JArr items))
        (fun s => Ok (string_to_number rt s))
  | Some (JObj members) =>
      result_bind (to_string (JObj members))
        (fun s => Ok (string_to_number rt s))
  end.

(** Does ToPrimitive give a string? *)
Definition primitive_is_string (v : json) : bool :=
  match v with
  | JStr _ => true
  | JArr _ => true
  | JObj _ => true
  | _ => false
  end.

(** [a + b] *)
Definition js_add (a b : json) : result json :=
  if primitive_is_string a || primitive_is_string b
  then
    result_bind (to_string a) (fun sa =>
    result_bind (to_string b) (fun sb => Ok (JStr (sa ++ sb))))
  else
    result_bind (to_number (Some a)) (fun x =>
    result_bind (to_number (Some b)) (fun y => Ok (JNum (x + y)%float))).

(** [a / b] *)
Definition js_div (a b : value) : result float :=
  result_bind (to_number a) (fun x =>
  result_bind (to_number b) (fun y => Ok (x / y)%float)).

End Coercions.

(** ** HTTP interaction *)

(** What [fetch] is called with. *)
Record request : Type := {
  req_url : string;
  req_headers : list (string * string);
  req_body : string;
  req_method : string
}.

(** What comes back: the promise of [fetch] rejects, or a response arrives
    with its status and its body; [None] is a body that is not JSON, on
    which [response.json()] rejects. *)
Inductive http_outcome : Type :=
| Rejected (message : string)
| Response (status : Z) (body : option json).

(** An asynchronous computation: it returns, throws, or awaits a [fetch]. *)
Inductive io (A : Type) : Type :=
| Return (a : A)
| Raise (e : exn)
| Fetch (r : request) (k : http_outcome -> io A).
Arguments Return {A} a.
Arguments Raise {A} e.
Arguments Fetch {A} r k.

Fixpoint bind {A B} (m : io A) (f : A -> io B) : io B :=
  match m with
  | Return a => f a
  | Raise e => Raise e
  | Fetch r k => Fetch r (fun o => bind (k o) f)
  end.

Definition lift {A} (r : result A) : io A :=
  match r with
  | Ok a => Return a
  | Throw e => Raise e
  end.

Declare Scope io_scope.
Delimit Scope io_scope with io.
Notation "x <- m ;; f" := (bind m (fun x => f))
  (at level 61, m at next level, right associativity) : io_scope.

(** Running a computation against the outcomes of its successive calls:
    the requests issued, and the result if the outcomes sufficed ([None]
    while a call is still pending). *)
Fixpoint exec {A} (p : io A) (outcomes : list http_outcome)
  : list request * option (result A) :=
  match p with
  | Return a => ([], Some (Ok a))
  | Raise e => ([], Some (Throw e))
  | Fetch r k =>
      match outcomes with
      | [] => ([r], None)
      | o :: rest =>
          let after := exec (k o) rest in (r :: fst after, snd after)
      end
  end.

(** ** The provider *)

Module DefaultCodacyInfoProvider.

(** The provider holds the registry it was built from. *)
Definition t : Type := CodacyConfig.t.

Definition fromConfig (config : Config) : result t :=
  CodacyConfig.fromConfig config.

Definition calculate_grade (grade : float) : string :=
  if (90 <=? grade)%float then "A"
  else if (80 <=? grade)%float then "B"
  else if (70 <=? grade)%float then "C"
  else if (60 <=? grade)%float then "D"
  else "F".

Definition api_request (url path authToken : string) : request :=
  let url_with_path := url ++ "/" ++ path ++ " " in
  {| req_url := url_with_path;
     req_headers := [ ("Content-Type", "application/json");
                      ("Accept", "application/json");
                      ("api-token", authToken) ];
     req_body := "{}";
     req_method := "POST" |}.

(** [callApi]: the decoded body when the status is 200, [undefined]
    otherwise. *)
Definition callApi (url path authToken : string) : io value :=
  Fetch (api_request url path authToken)
    (fun response =>
       match response with
       | Rejected message => Raise (FetchError message)
       | Response status body =>
           if (status =? 200)%Z then
             match body with
             | Some decoded => Return (Some decoded)
             | None => Raise (FetchError "invalid json response body")
             end
           else Return None
       end).

Definition getBaseUrl (this : t) (instanceName : option string)
  : result (string * option string) :=
  result_bind (CodacyConfig.getInstanceConfig this instanceName)
    (fun instanceConfig =>
       Ok (baseUrl instanceConfig, externalBaseUrl instanceConfig)).

(** The object returned by [getFindings]. *)
Record metrics_general : Type := {
  grade : float;
  grade_letter : string;
  code_coverage : float;
  issuesPercentage : float;
  complexFilesPercentage : float;
  duplicationPercentage : float;
  totalOpen : value;
  totalClosed : value;
  onTrack : value;
  closedOnTime : value
}.

(** The five running sums of the loop. *)
Record totals : Type := {
  grade_total : json;
  code_coverage_total : json;
  issuesPercentage_total : json;
  complexFilesPercentage_total : json;
  duplicationPercentage_total : json
}.

Definition security_path (componentKey : string) : string :=
  "organizations/gh/" ++ componentKey ++ "/security/dashboard".

Definition analysis_path : string :=
  "search/analysis/organizations/gh/MonkeyECX/repositories".

Section WithRuntime.

Variable rt : runtime.

(** [if (item.field) { total += item.field } else { total += 100 }] *)
Definition add_metric (total : json) (item : value) (field : string)
  : result json :=
  result_bind (get item field)
    (fun v =>
       match v with
       | Some x =>
           if truthy v then js_add rt total x
           else js_add rt total (JNum 100)
       | None => js_add rt total (JNum 100)
       end).

(** One turn of the loop, for the key [i]. *)
Definition loop_body (data : value) (s : totals) (i : string)
  : result totals :=
  result_bind (get data i) (fun item =>
  result_bind (add_metric (grade_total s) item "grade") (fun g =>
  result_bind (add_metric (code_coverage_total s) item
                 "coveragePercentageWithDecimals") (fun c =>
  result_bind (add_metric (issuesPercentage_total s) item
                 "issuesPercentage") (fun i' =>
  result_bind (add_metric (complexFilesPercentage_total s) item
                 "complexFilesPercentage") (fun x =>
  result_bind (add_metric (duplicationPercentage_total s) item
                 "duplicationPercentage") (fun d =>
  Ok {| grade_total := g;
        code_coverage_total := c;
        issuesPercentage_total := i';
        complexFilesPercentage_total := x;
        duplicationPercentage_total := d |})))))).

(** [for (const i in data) { ... }] *)
Fixpoint for_in (keys : list string) (data : value) (s : totals)
  : result totals :=
  match keys with
  | [] => Ok s
  | i :: rest => result_bind (loop_body data s i) (for_in rest data)
  end.

Definition initial_totals : totals :=
  {| grade_total := JNum 0;
     code_coverage_total := JNum 0;
     issuesPercentage_total := JNum 0;
     complexFilesPercentage_total := JNum 0;
     duplicationPercentage_total := JNum 0 |}.

(** The part of [getFindings] after the two calls: the loop, the
    averages and the summary. The [console.log] lines have no effect on
    the result. *)
Definition summarize (security analysis_data : value)
  : result metrics_general :=
  result_bind (for_in (for_in_keys analysis_data) analysis_data
                 initial_totals) (fun s =>
  result_bind (get analysis_data "length") (fun len =>
  result_bind (js_div rt (Some (grade_total s)) len)
    (fun grade_average =>
  result_bind (js_div rt (Some (code_coverage_total s)) len)
    (fun code_coverage_average =>
  result_bind (js_div rt (Some (issuesPercentage_total s)) len)
    (fun issuesPercentage_average =>
  result_bind (js_div rt (Some (complexFilesPercentage_total s)) len)
    (fun complexFilesPercentage_average =>
  result_bind (js_div rt (Some (duplicationPercentage_total s)) len)
    (fun duplicationPercentage_average =>
  result_bind (get security "data") (fun security_data =>
  result_bind (get security_data "totalOpen") (fun open =>
  result_bind (get security_data "totalClosed") (fun closed =>
  result_bind (get security_data "onTrack") (fun track =>
  result_bind (get security_data "closedOnTime") (fun on_time =>
  Ok {| grade := grade_average;
        grade_letter := calculate_grade grade_average;
        code_coverage := code_coverage_average;
        issuesPercentage := issuesPercentage_average;
        complexFilesPercentage := complexFilesPercentage_average;
        duplicationPercentage := duplicationPercentage_average;
        totalOpen := open;
        totalClosed := closed;
        onTrack := track;
        closedOnTime := on_time |})))))))))))).

(** The aggregation for a resolved instance. *)
Definition aggregate (instance : CodacyInstanceConfig)
  (componentKey : string) : io (option metrics_general) :=
  (security <- callApi (baseUrl instance) (security_path componentKey)
                 (apiKey instance) ;;
   if negb (truthy security) then Return None
   else
     analysis <- callApi (baseUrl instance) analysis_path
                   (apiKey instance) ;;
     if negb (truthy analysis) then Return None
     else
       data <- lift (get analysis "data") ;;
       if negb (truthy data) then Return None
       else
         summary <- lift (summarize security data) ;;
         Return (Some summary))%io.

Definition getFindings (this : t) (componentKey : string)
  (instanceName : option string) : io (option metrics_general) :=
  (instance <- lift (CodacyConfig.getInstanceConfig this instanceName) ;;
   aggregate instance componentKey)%io.

End WithRuntime.

End DefaultCodacyInfoProvider.

(** ** The router *)

Module Router.

(** What the handler of [GET /findings] comes to: it throws an
    [InputError], or logs one line and sends what [getFindings] resolves
    to. *)
Inductive handled : Type :=
| InputError (message : string)
| Answer (log : string)
    (body : io (option DefaultCodacyInfoProvider.metrics_general)).

(** The handler, on the query parameters [componentKey] and [instanceKey],
    each a string or [undefined]. *)
Definition findings (rt : runtime)
  (codacyInfoProvider : DefaultCodacyInfoProvider.t)
  (componentKey instanceKey : option string) : handled :=
  match componentKey with
  | Some key =>
      if negb (truthy_str componentKey)
      then InputError "ComponentKey must be provided as a single string."
      else
        Answer
          match instanceKey with
          | Some instance =>
              if truthy_str instanceKey
              then "Retrieving findings for component " ++ key
                   ++ "  in codacy instance name " ++ instance
              else "Retrieving findings for component " ++ key
                   ++ " in default codacy instance"
          | None =>
              "Retrieving findings for component " ++ key
              ++ " in default codacy instance"
          end
          (DefaultCodacyInfoProvider.getFindings rt codacyInfoProvider key
             instanceKey)
  | None => InputError "ComponentKey must be provided as a single string."
  end.

End Router.

(** * Definitions used by the statements *)

Import DefaultCodacyInfoProvider.

(** What follows the first call of [aggregate], as a function of what
    [callApi] returned. *)
Definition after_security (rt : runtime) (instance : CodacyInstanceConfig)
  (security : value) : io (option metrics_general) :=
  if negb (truthy security) then Return None
  else
    bind (callApi (baseUrl instance) analysis_path (apiKey instance))
      (fun analysis =>
         if negb (truthy analysis) then Return None
         else
           bind (lift (get analysis "data")) (fun data =>
             if negb (truthy data) then Return None
             else bind (lift (summarize rt security data))
                    (fun summary => Return (Some summary)))).

(** An engine whose conversions are constant: the examples below run with
    it, and none of them converts between numbers and strings. *)
Definition sample_runtime : runtime :=
  {| number_to_string := fun _ => "NaN";
     string_to_number := fun _ => PrimFloat.nan |}.

Definition sample_instance : CodacyInstanceConfig :=
  {| name := "default";
     baseUrl := "https://app.codacy.com/api/v3";
     externalBaseUrl := None;
     apiKey := "123456789abcdef0123456789abcedf012" |}.

Definition sample_security : json :=
  JObj [ ("data", JObj [ ("totalOpen", JNum 7); ("totalClosed", JNum 3);
                         ("onTrack", JNum 5); ("closedOnTime", JNum 2) ]) ].

(** The named entries of a [codacy] block. *)
Definition named_blocks (c : CodacyBlock) : list InstanceBlock :=
  match top_instances c with
  | Some cs => cs
  | None => []
  end.

Definition has_named_default (c : CodacyBlock) : bool :=
  existsb (fun b => block_name b =? DEFAULT_CODACY_NAME) (named_blocks c).

(** The record made of a named entry whose strings the reader accepts. *)
Definition instance_of_block (c : InstanceBlock) : CodacyInstanceConfig :=
  {| name := block_name c;
     baseUrl := block_baseUrl c;
     externalBaseUrl := block_externalBaseUrl c;
     apiKey := block_apiKey c |}.

(** What the reader accepts: a missing value or a string that is not
    empty. *)
Definition readable_string (v : option string) : bool :=
  match v with
  | Some s => negb (s =? "")
  | None => true
  end.

Definition readable_block (c : InstanceBlock) : bool :=
  negb (block_name c =? "") && negb (block_baseUrl c =? "")
  && readable_string (block_externalBaseUrl c)
  && negb (block_apiKey c =? "").

(** A [codacy] block in which no configured string is empty. *)
Definition readable (c : CodacyBlock) : bool :=
  forallb readable_block (named_blocks c)
  && readable_string (top_baseUrl c)
  && readable_string (top_externalBaseUrl c)
  && readable_string (top_apiKey c).

(** A configuration with the top-level block only. *)
Definition top_level_config (b : string) (ext : option string) (k : string)
  (named : option (list InstanceBlock)) : Config :=
  {| codacy := Some {| top_baseUrl := Some b;
                       top_externalBaseUrl := ext;
                       top_apiKey := Some k;
                       top_instances := named |} |}.

(** Two named entries with the same name "team". *)
Definition duplicate_names_config : Config :=
  {| codacy := Some
       {| top_baseUrl := None; top_externalBaseUrl := None;
          top_apiKey := None;
          top_instances := Some
            [ {| block_name := "team";
                 block_baseUrl := "https://codacy.example.com";
                 block_externalBaseUrl := None;
                 block_apiKey := "123456789abcdef0123456789abcedf012" |};
              {| block_name := "team";
                 block_baseUrl := "https://codacy-other.example.com";
                 block_externalBaseUrl := None;
                 block_apiKey := "abcdef0123456789abcedf0123456789abc" |} ] |} |}.

Definition two_instances_block : CodacyBlock :=
  {| top_baseUrl := Some "https://codacy.example.com";
     top_externalBaseUrl := None;
     top_apiKey := Some "123456789abcdef0123456789abcedf012";
     top_instances := Some
       [ {| block_name := "other";
            block_baseUrl := "https://codacy-other.example.com";
            block_externalBaseUrl := None;
            block_apiKey := "abcdef0123456789abcedf0123456789abc" |} ] |}.

(** A named "default" entry together with a top-level [baseUrl] and no
    [apiKey]. *)
Definition named_default_partial_block : CodacyBlock :=
  {| top_baseUrl := Some "https://codacy.example.com";
     top_externalBaseUrl := None;
     top_apiKey := None;
     top_instances := Some
       [ {| block_name := "default";
            block_baseUrl := "https://codacy.example.com";
            block_externalBaseUrl := None;
            block_apiKey := "123456789abcdef0123456789abcedf012" |} ] |}.

(** The analysis body of two records: one with the five fields, one with
    none of them. *)
Definition full_record : json :=
  JObj [ ("grade", JNum 100);
         ("coveragePercentageWithDecimals", JNum 100);
         ("issuesPercentage", JNum 0);
         ("complexFilesPercentage", JNum 0);
         ("duplicationPercentage", JNum 0) ].

Definition empty_record : json := JObj [].

Definition two_records_analysis : json :=
  JObj [ ("data", JArr [full_record; empty_record]) ].

(** Fixtures of [codacyInfoProvider.test.ts]. *)
Definition DUMMY_SIMPLE_CONFIG : Config :=
  {| codacy := Some
       {| top_baseUrl := Some "https://codacy.example.com";
          top_externalBaseUrl := None;
          top_apiKey := Some "123456789abcdef0123456789abcedf012";
          top_instances := None |} |}.

Definition DUMMY_NAMED_CONFIG : Config :=
  {| codacy := Some
       {| top_baseUrl := None;
          top_externalBaseUrl := None;
          top_apiKey := None;
          top_instances := Some
            [ {| block_name := "default";
                 block_baseUrl := "https://codacy.example.com";
                 block_externalBaseUrl := None;
                 block_apiKey := "123456789abcdef0123456789abcedf012" |} ] |} |}.

Definition DUMMY_DEFAULT_INSTANCE : CodacyInstanceConfig :=
  {| name := "default";
     baseUrl := "https://codacy.example.com";
     externalBaseUrl := None;
     apiKey := "123456789abcdef0123456789abcedf012" |}.

Definition DUMMY_OTHER_INSTANCE : CodacyInstanceConfig :=
  {| name := "other";
     baseUrl := "https://codacy-other.example.com";
     externalBaseUrl := None;
     apiKey := "123456789abcdef0123456789abcedf012" |}.

(** The name a resolution looks up: "default" when the name is omitted or
    empty. *)
Definition requested_name (codacyName : option string) : string :=
  match codacyName with
  | Some n => if n =? "" then DEFAULT_CODACY_NAME else n
  | None => DEFAULT_CODACY_NAME
  end.

(** The record that [fromConfig] makes of a complete top-level block. *)
Definition unnamed_record (b : string) (ext : option string) (k : string)
  : CodacyInstanceConfig :=
  {| name := DEFAULT_CODACY_NAME; baseUrl := b;
     externalBaseUrl := ext; apiKey := k |}.

(** The five accumulations of one turn of the loop, on the record
    [item]. *)
Definition add_record (rt : runtime) (s : totals) (item : value)
  : result totals :=
  result_bind (add_metric rt (grade_total s) item "grade") (fun g =>
  result_bind (add_metric rt (code_coverage_total s) item
                 "coveragePercentageWithDecimals") (fun c =>
  result_bind (add_metric rt (issuesPercentage_total s) item
                 "issuesPercentage") (fun i' =>
  result_bind (add_metric rt (complexFilesPercentage_total s) item
                 "complexFilesPercentage") (fun x =>
  result_bind (add_metric rt (duplicationPercentage_total s) item
                 "duplicationPercentage") (fun d =>
  Ok {| grade_total := g;
        code_coverage_total := c;
        issuesPercentage_total := i';
        complexFilesPercentage_total := x;
        duplicationPercentage_total := d |}))))).

(** The loop as a traversal of the elements of an array. *)
Fixpoint add_records (rt : runtime) (items : list json) (s : totals)
  : result totals :=
  match items with
  | [] => Ok s
  | item :: rest =>
      result_bind (add_record rt s (Some item)) (add_records rt rest)
  end.

(** A field value that [+] adds as a number: absent, [null], a boolean or
    a number. *)
Definition plain_value (v : value) : bool :=
  match v with
  | Some (JStr _) => false
  | Some (JArr _) => false
  | Some (JObj _) => false
  | _ => true
  end.

Definition metric_fields : list string :=
  [ "grade"; "coveragePercentageWithDecimals"; "issuesPercentage";
    "complexFilesPercentage"; "duplicationPercentage" ].

(** A record that is not [null] and whose five metrics are plain. *)
Definition plain_record (item : json) : Prop :=
  item <> JNull /\
  forall field, In field metric_fields ->
                plain_value (get_own item field) = true.

(** What a plain field adds to its sum: its value when truthy, 100
    otherwise. *)
Definition metric_contribution (v : value) : float :=
  match v with
  | Some (JNum x) => if truthy v then x else 100%float
  | Some (JBool true) => 1%float
  | _ => 100%float
  end.

(** The sum of one field over the records, from 0 and in array order. *)
Definition metric_sum (field : string) (items : list json) : float :=
  fold_left
    (fun acc item => (acc + metric_contribution (get_own item field))%float)
    items 0%float.

(** The order of the letters, F lowest. *)
Definition letter_rank (letter : string) : nat :=
  if letter =? "A" then 4
  else if letter =? "B" then 3
  else if letter =? "C" then 2
  else if letter =? "D" then 1
  else 0.

(** The two requests of [getFindings], in the order they are issued. *)
Definition findings_requests (instance : CodacyInstanceConfig)
  (componentKey : string) : list request :=
  [ api_request (baseUrl instance) (security_path componentKey)
      (apiKey instance);
    api_request (baseUrl instance) analysis_path (apiKey instance) ].

Definition json_is_null (v : json) : bool :=
  match v with
  | JNull => true
  | _ => false
  end.

(** * Properties *)

(** ** Order of binary64 values *)

Section FloatOrder.

Lemma SFcompare_antisym (x y : spec_float) :
  SFcompare y x = option_map CompOpp (SFcompare x y).
Proof.
  destruct x as [sx| sx | |sx mx ex], y as [sy|sy| |sy my ey]; simpl;
    try reflexivity;
    try (destruct sx; reflexivity);
    try (destruct sy; reflexivity);
    try (destruct sx, sy; reflexivity).
  assert (Hm : PosDef.Pos.compare_cont Eq my mx
               = CompOpp (PosDef.Pos.compare_cont Eq mx my))
    by (symmetry; exact (Pos.compare_cont_antisym mx my Eq)).
  destruct sx, sy; simpl; try reflexivity;
    rewrite (Z.compare_antisym ex ey);
    destruct (ex ?= ey)%Z; simpl; try reflexivity;
    rewrite Hm; destruct (PosDef.Pos.compare_cont Eq mx my); reflexivity.
Qed.

(** [x < a <= b] gives [x < b]. *)
Lemma SFcompare_lt_le_trans (x a b : spec_float) :
  SFcompare x a = Some Lt ->
  SFcompare a b = Some Lt \/ SFcompare a b = Some Eq ->
  SFcompare x b = Some Lt.
Proof.
  destruct x as [sx|sx| |sx mx ex], a as [sa|sa| |sa ma ea],
    b as [sb|sb| |sb mb eb]; simpl;
    try discriminate;
    try (intros _ [H|H]; discriminate H);
    try (destruct sx, sa, sb; simpl; intros H0 [H|H];
         try discriminate; try reflexivity; fail);
    try (destruct sx, sa; simpl; intros H0 [H|H];
         try discriminate; try reflexivity; fail);
    try (destruct sx, sb; simpl; intros H0 [H|H];
         try discriminate; try reflexivity; fail);
    try (destruct sa, sb; simpl; intros H0 [H|H];
         try discriminate; try reflexivity; fail);
    try (destruct sx; simpl; intros H0 [H|H];
         try discriminate; try reflexivity; fail).
  all: destruct sx, sa, sb; simpl; intros H0 [H|H];
    try discriminate; try reflexivity;
    revert H0 H;
    repeat match goal with
      | |- context [PosDef.Pos.compare_cont Eq ?p ?q] =>
          change (PosDef.Pos.compare_cont Eq p q) with (Pos.compare p q)
      end;
    destruct (Z.compare_spec ex ea), (Z.compare_spec ea eb),
      (Z.compare_spec ex eb);
    try discriminate; try lia; try reflexivity;
    destruct (Pos.compare_spec mx ma), (Pos.compare_spec ma mb),
      (Pos.compare_spec mx mb);
    simpl; try discriminate; try lia; try reflexivity.
Qed.

(** [x < c] excludes [c <= x]. *)
Lemma ltb_not_leb (x c : float) :
  (x <? c)%float = true -> (c <=? x)%float = false.
Proof.
  rewrite ltb_spec, leb_spec. unfold SFltb, SFleb.
  rewrite (SFcompare_antisym (Prim2SF x) (Prim2SF c)).
  destruct (SFcompare (Prim2SF x) (Prim2SF c)) as [[]|]; simpl;
    congruence.
Qed.

(** [x < a] and [a <= b] exclude [b <= x]. *)
Lemma ltb_leb_trans (x a b : float) :
  (x <? a)%float = true -> (a <=? b)%float = true ->
  (b <=? x)%float = false.
Proof.
  intros Hxa Hab. apply ltb_not_leb.
  revert Hxa Hab. rewrite !ltb_spec, leb_spec. unfold SFltb, SFleb.
  intros Hxa Hab.
  rewrite (SFcompare_lt_le_trans (Prim2SF x) (Prim2SF a) (Prim2SF b));
    [reflexivity| |].
  - destruct (SFcompare (Prim2SF x) (Prim2SF a)) as [[]|];
      congruence.
  - destruct (SFcompare (Prim2SF a) (Prim2SF b)) as [[]|];
      try discriminate; auto.
Qed.

(** A value that is neither below nor at least a number [c] is not
    comparable at all: it is NaN, and no bound holds for it. *)
Lemma unordered_no_bound (x c d : float) :
  (c =? c)%float = true ->
  (c <=? x)%float = false -> (x <? c)%float = false ->
  (d <=? x)%float = false.
Proof.
  rewrite eqb_spec, ltb_spec, !leb_spec. unfold SFeqb, SFltb, SFleb.
  rewrite (SFcompare_antisym (Prim2SF c) (Prim2SF x)).
  intros Hc Hle Hlt.
  destruct (Prim2SF x) as [sx|sx| |sx mx ex] eqn:Ex;
    [| | destruct (Prim2SF d) as [| | |]; reflexivity |];
    destruct (Prim2SF c) as [sc|sc| |sc mc ec];
    try discriminate Hc;
    match type of Hle with
    | context [SFcompare ?a ?b] =>
        destruct (SFcompare a b) as [[]|] eqn:E; simpl in Hle, Hlt;
        try discriminate; simpl in E; discriminate E
    end.
Qed.

End FloatOrder.

(** ** Grade letters *)

(** C2: for every number [g] the letter is A when [g >= 90], B when
    [80 <= g < 90], C when [70 <= g < 80], D when [60 <= g < 70] and F in
    every other case (below 60, or NaN); 90 gives A, 89.999 and 80 give B,
    69.999 gives D and 59.999 gives F. *)
Theorem calculate_grade_thresholds (g : float) :
  ((90 <=? g)%float = true -> calculate_grade g = "A") /\
  ((80 <=? g)%float = true /\ (g <? 90)%float = true ->
   calculate_grade g = "B") /\
  ((70 <=? g)%float = true /\ (g <? 80)%float = true ->
   calculate_grade g = "C") /\
  ((60 <=? g)%float = true /\ (g <? 70)%float = true ->
   calculate_grade g = "D") /\
  ((90 <=? g)%float = false ->
   ((80 <=? g) && (g <? 90))%float = false ->
   ((70 <=? g) && (g <? 80))%float = false ->
   ((60 <=? g) && (g <? 70))%float = false ->
   calculate_grade g = "F") /\
  calculate_grade 90 = "A" /\
  calculate_grade 89.999 = "B" /\
  calculate_grade 80 = "B" /\
  calculate_grade 69.999 = "D" /\
  calculate_grade 59.999 = "F".
Proof.
  assert (below : forall c d,
             (g <? c)%float = true -> (c <=? d)%float = true ->
             (d <=? g)%float = false)
    by (intros c d; apply ltb_leb_trans).
  assert (nan_case : forall c d,
             (c =? c)%float = true ->
             (c <=? g)%float = false ->
             ((d <=? g) && (g <? c))%float = false ->
             (d <=? g)%float = false).
  { intros c d Hc Hle Hand.
    destruct (d <=? g)%float eqn:Hd; [|reflexivity].
    simpl in Hand.
    rewrite (unordered_no_bound g c d Hc Hle Hand) in Hd. discriminate. }
  unfold calculate_grade.
  repeat split; try reflexivity.
  - intros ->. reflexivity.
  - intros [H80 H90].
    rewrite (below 90 90 H90 eq_refl)%float, H80. reflexivity.
  - intros [H70 H80].
    rewrite (below 80 90 H80 eq_refl)%float,
      (below 80 80 H80 eq_refl)%float, H70.
    reflexivity.
  - intros [H60 H70].
    rewrite (below 70 90 H70 eq_refl)%float, (below 70 80 H70 eq_refl)%float,
      (below 70 70 H70 eq_refl)%float, H60.
    reflexivity.
  - intros H90 HB HC HD.
    pose proof (nan_case 90 80 eq_refl H90 HB)%float as H80.
    pose proof (nan_case 80 70 eq_refl H80 HC)%float as H70.
    pose proof (nan_case 70 60 eq_refl H70 HD)%float as H60.
    rewrite H90, H80, H70, H60. reflexivity.
Qed.

(** ** The registry tests of the repository *)

Example reads_simple_config :
  CodacyConfig.fromConfig DUMMY_SIMPLE_CONFIG = Ok [DUMMY_DEFAULT_INSTANCE].
Proof. reflexivity. Qed.

Example reads_named_default_config :
  CodacyConfig.fromConfig DUMMY_NAMED_CONFIG = Ok [DUMMY_DEFAULT_INSTANCE].
Proof. reflexivity. Qed.

Example gets_default_instance_without_parameter :
  CodacyConfig.getInstanceConfig
    [DUMMY_DEFAULT_INSTANCE; DUMMY_OTHER_INSTANCE] None
  = Ok DUMMY_DEFAULT_INSTANCE.
Proof. reflexivity. Qed.

Example gets_named_instance :
  CodacyConfig.getInstanceConfig
    [DUMMY_DEFAULT_INSTANCE; DUMMY_OTHER_INSTANCE] (Some "other")
  = Ok DUMMY_OTHER_INSTANCE.
Proof. reflexivity. Qed.

Example named_instance_not_found :
  CodacyConfig.getInstanceConfig [DUMMY_DEFAULT_INSTANCE] (Some "other")
  = Throw (Error "Couldn't find a codacy instance in the config with name other").
Proof. reflexivity. Qed.

Example base_url_for_empty_instance_name :
  result_bind (DefaultCodacyInfoProvider.fromConfig DUMMY_SIMPLE_CONFIG)
    (fun provider => getBaseUrl provider (Some ""))
  = Ok ("https://codacy.example.com", None).
Proof. reflexivity. Qed.

(** ** The registry *)

Section Registry.

Lemma truthy_str_nonempty (s : string) :
  s <> "" -> truthy_str (Some s) = true.
Proof.
  intros H. simpl. apply String.eqb_neq in H. rewrite H. reflexivity.
Qed.

Lemma unnamedAllPresent_Some (b k : option string) (p : string * string) :
  CodacyConfig.unnamedAllPresent b k = Some p ->
  b = Some (fst p) /\ k = Some (snd p) /\
  truthy_str b = true /\ truthy_str k = true.
Proof.
  unfold CodacyConfig.unnamedAllPresent.
  destruct b as [b|], k as [k|]; try discriminate.
  destruct (truthy_str (Some b)) eqn:Hb, (truthy_str (Some k)) eqn:Hk;
    simpl; try discriminate.
  intros [= <-]. auto.
Qed.

Lemma existsb_instance_of_block (cs : list InstanceBlock) :
  existsb (fun x => name x =? DEFAULT_CODACY_NAME) (map instance_of_block cs)
  = existsb (fun b => block_name b =? DEFAULT_CODACY_NAME) cs.
Proof.
  induction cs as [|b cs IH]; simpl; [reflexivity|].
  rewrite IH. reflexivity.
Qed.

(** The reader returns a value exactly when it is readable, and returns it
    unchanged. *)
Lemma getOptionalString_Ok (key : string) (v w : option string) :
  CodacyConfig.getOptionalString key v = Ok w <->
  readable_string v = true /\ w = v.
Proof.
  unfold CodacyConfig.getOptionalString, readable_string.
  destruct v as [s|]; [destruct (s =? "")|]; cbn; split;
    try (intros [= <-]; auto); try (intros [_ ->]; reflexivity);
    try discriminate; intros [H _]; discriminate H.
Qed.

Lemma getString_Ok (key v w : string) :
  CodacyConfig.getString key v = Ok w <-> (v =? "") = false /\ w = v.
Proof.
  unfold CodacyConfig.getString.
  destruct (v =? ""); split;
    try (intros [= <-]; auto); try (intros [_ ->]; reflexivity);
    try discriminate; intros [H _]; discriminate H.
Qed.

Lemma read_instance_Ok (i : nat) (c : InstanceBlock)
  (r : CodacyInstanceConfig) :
  CodacyConfig.read_instance i c = Ok r <->
  readable_block c = true /\ r = instance_of_block c.
Proof.
  unfold CodacyConfig.read_instance, CodacyConfig.getString,
    CodacyConfig.getOptionalString, readable_block, readable_string,
    instance_of_block.
  destruct (block_name c =? ""), (block_baseUrl c =? "");
    cbn [result_bind negb andb];
    try (split; [discriminate | intros [H _]; discriminate H]).
  destruct (block_externalBaseUrl c) as [e|];
    [destruct (e =? "")|]; cbn [result_bind negb andb];
    try (split; [discriminate | intros [H _]; discriminate H]);
    destruct (block_apiKey c =? ""); cbn [result_bind negb andb];
    try (split; [discriminate | intros [H _]; discriminate H]);
    (split; [intros [= <-]; auto | intros [_ ->]; reflexivity]).
Qed.

Lemma read_instances_Ok (cs : list InstanceBlock) (i : nat)
  (rs : list CodacyInstanceConfig) :
  CodacyConfig.read_instances i cs = Ok rs <->
  forallb readable_block cs = true /\ rs = map instance_of_block cs.
Proof.
  revert i rs. induction cs as [|c cs IH]; intros i rs;
    cbn [CodacyConfig.read_instances forallb map].
  - split; [intros [= <-]; auto | intros [_ ->]; reflexivity].
  - destruct (CodacyConfig.read_instance i c) as [r|e] eqn:Hc;
      cbn [result_bind].
    + apply read_instance_Ok in Hc as [Hc ->]. rewrite Hc. cbn [andb].
      destruct (CodacyConfig.read_instances (S i) cs) as [rs'|e] eqn:Hcs;
        cbn [result_bind].
      * apply IH in Hcs as [Hcs ->]. rewrite Hcs.
        split; [intros [= <-]; auto | intros [_ ->]; reflexivity].
      * split; [discriminate|]. intros [Hall _].
        assert (Hok : CodacyConfig.read_instances (S i) cs
                      = Ok (map instance_of_block cs))
          by (apply IH; auto).
        congruence.
    + split; [discriminate|]. intros [Hall _].
      apply andb_true_iff in Hall as [Hb _].
      assert (Hok : CodacyConfig.read_instance i c = Ok (instance_of_block c))
        by (apply read_instance_Ok; auto).
      congruence.
Qed.

(** [fromConfig] on a [codacy] block that the reader accepts, in terms of
    the block. *)
Lemma fromConfig_unfold (c : CodacyBlock) :
  readable c = true ->
  CodacyConfig.fromConfig {| codacy := Some c |} =
  if has_named_default c &&
     (truthy_str (top_baseUrl c) || truthy_str (top_externalBaseUrl c)
      || truthy_str (top_apiKey c))
  then Throw (Error CodacyConfig.conflict_message)
  else
    match CodacyConfig.unnamedAllPresent (top_baseUrl c) (top_apiKey c) with
    | None =>
        if negb (truthy_str (top_baseUrl c))
           && negb (truthy_str (top_apiKey c))
        then Ok (map instance_of_block (named_blocks c))
        else Throw (Error CodacyConfig.partial_message)
    | Some (b, k) =>
        Ok (map instance_of_block (named_blocks c)
            ++ [ {| name := DEFAULT_CODACY_NAME; baseUrl := b;
                    externalBaseUrl := top_externalBaseUrl c;
                    apiKey := k |} ])%list
    end.
Proof.
  unfold readable. intros Hr.
  apply andb_true_iff in Hr as [Hr Hk].
  apply andb_true_iff in Hr as [Hr He].
  apply andb_true_iff in Hr as [Hn Hb].
  unfold CodacyConfig.fromConfig. cbn [CodacyConfig.getConfig_codacy codacy
                                       result_bind].
  assert (Hnamed : match top_instances c with
                   | Some cs => CodacyConfig.read_instances 0 cs
                   | None => Ok []
                   end = Ok (map instance_of_block (named_blocks c))).
  { unfold named_blocks in *. destruct (top_instances c) as [cs|];
      [|reflexivity].
    apply read_instances_Ok. auto. }
  rewrite Hnamed. cbn [result_bind].
  rewrite (proj2 (getOptionalString_Ok _ _ _) (conj Hb eq_refl)).
  rewrite (proj2 (getOptionalString_Ok _ _ _) (conj He eq_refl)).
  rewrite (proj2 (getOptionalString_Ok _ _ _) (conj Hk eq_refl)).
  cbn [result_bind]. unfold has_named_default.
  rewrite existsb_instance_of_block. reflexivity.
Qed.

(** Construction succeeds only on a block that the reader accepts. *)
Lemma fromConfig_readable (c : CodacyBlock) (registry : CodacyConfig.t) :
  CodacyConfig.fromConfig {| codacy := Some c |} = Ok registry ->
  readable c = true.
Proof.
  unfold CodacyConfig.fromConfig. cbn [CodacyConfig.getConfig_codacy codacy
                                       result_bind].
  destruct (match top_instances c with
            | Some cs => CodacyConfig.read_instances 0 cs
            | None => Ok []
            end) as [named|e] eqn:Hnamed; [|discriminate].
  cbn [result_bind].
  destruct (CodacyConfig.getOptionalString "codacy.baseUrl" (top_baseUrl c))
    as [b|e] eqn:Hb; [|discriminate].
  cbn [result_bind].
  destruct (CodacyConfig.getOptionalString "codacy.externalBaseUrl"
              (top_externalBaseUrl c)) as [x|e] eqn:He; [|discriminate].
  cbn [result_bind].
  destruct (CodacyConfig.getOptionalString "codacy.apiKey" (top_apiKey c))
    as [k|e] eqn:Hk; [|discriminate].
  intros _.
  apply getOptionalString_Ok in Hb as [Hb _].
  apply getOptionalString_Ok in He as [He _].
  apply getOptionalString_Ok in Hk as [Hk _].
  unfold readable. rewrite Hb, He, Hk, !andb_true_r.
  unfold named_blocks. destruct (top_instances c) as [cs|]; [|reflexivity].
  apply read_instances_Ok in Hnamed as [Hall _]. exact Hall.
Qed.

Lemma no_named_default_not_in (l : list InstanceBlock) :
  existsb (fun b => block_name b =? DEFAULT_CODACY_NAME) l = false ->
  ~ In DEFAULT_CODACY_NAME (map name (map instance_of_block l)).
Proof.
  induction l as [|b l IH]; simpl; [tauto|].
  intros H. apply orb_false_iff in H as [Hb Hl].
  apply String.eqb_neq in Hb. intros [E|E]; [congruence|].
  exact (IH Hl E).
Qed.

Lemma find_instance_absent (instances : CodacyConfig.t) (n : string) :
  ~ In n (map name instances) ->
  CodacyConfig.find_instance instances n = None.
Proof.
  unfold CodacyConfig.find_instance.
  induction instances as [|c l IH]; simpl; [reflexivity|].
  intros H. destruct (name c =? n) eqn:E.
  - apply String.eqb_eq in E. tauto.
  - apply IH. tauto.
Qed.

End Registry.

(** C5: when only the top-level fields are set, with [baseUrl] and [apiKey]
    present (strings that are not empty), [externalBaseUrl] absent or not
    empty, and no named instance, construction succeeds and resolving with
    no name, with the empty name or with the name "default" returns the
    record named "default" that carries exactly the top-level [baseUrl],
    [externalBaseUrl] and [apiKey]. *)
Theorem top_level_config_round_trip
  (b k : string) (ext : option string) (named : option (list InstanceBlock)) :
  b <> "" -> k <> "" -> ext <> Some "" ->
  named = None \/ named = Some [] ->
  let record := {| name := "default"; baseUrl := b;
                   externalBaseUrl := ext; apiKey := k |} in
  exists registry,
    DefaultCodacyInfoProvider.fromConfig (top_level_config b ext k named)
    = Ok registry /\
    CodacyConfig.getInstanceConfig registry None = Ok record /\
    CodacyConfig.getInstanceConfig registry (Some "") = Ok record /\
    CodacyConfig.getInstanceConfig registry (Some "default") = Ok record.
Proof.
  intros Hb Hk Hext Hnamed record. exists [record].
  split.
  - unfold DefaultCodacyInfoProvider.fromConfig, top_level_config.
    rewrite fromConfig_unfold.
    2:{ unfold readable, named_blocks.
        cbn [top_baseUrl top_externalBaseUrl top_apiKey top_instances
             readable_string].
        apply String.eqb_neq in Hb, Hk. rewrite Hb, Hk.
        assert (Hr : readable_string ext = true).
        { destruct ext as [e|]; [|reflexivity]. simpl.
          destruct (e =? "") eqn:E; [|reflexivity].
          apply String.eqb_eq in E. subst e. contradiction. }
        rewrite Hr. destruct Hnamed as [-> | ->]; reflexivity. }
    unfold has_named_default, named_blocks.
    cbn [top_baseUrl top_externalBaseUrl top_apiKey top_instances].
    assert (Hnone : existsb (fun b0 => block_name b0 =? DEFAULT_CODACY_NAME)
                      match named with Some cs => cs | None => [] end = false)
      by (destruct Hnamed as [-> | ->]; reflexivity).
    rewrite Hnone. cbn [andb].
    unfold CodacyConfig.unnamedAllPresent.
    rewrite (truthy_str_nonempty b Hb), (truthy_str_nonempty k Hk).
    destruct Hnamed as [-> | ->]; reflexivity.
  - unfold CodacyConfig.getInstanceConfig, CodacyConfig.find_instance.
    repeat split; reflexivity.
Qed.

Lemma top_level_config_round_trip_witness :
  "https://codacy.example.com" <> "" /\
  "123456789abcdef0123456789abcedf012" <> "" /\
  (None : option string) <> Some "" /\
  exists registry,
    DefaultCodacyInfoProvider.fromConfig
      (top_level_config "https://codacy.example.com" None
         "123456789abcdef0123456789abcedf012" None) = Ok registry /\
    CodacyConfig.getInstanceConfig registry None
    = Ok {| name := "default"; baseUrl := "https://codacy.example.com";
            externalBaseUrl := None;
            apiKey := "123456789abcdef0123456789abcedf012" |} /\
    CodacyConfig.getInstanceConfig registry (Some "")
    = Ok {| name := "default"; baseUrl := "https://codacy.example.com";
            externalBaseUrl := None;
            apiKey := "123456789abcdef0123456789abcedf012" |} /\
    CodacyConfig.getInstanceConfig registry (Some "default")
    = Ok {| name := "default"; baseUrl := "https://codacy.example.com";
            externalBaseUrl := None;
            apiKey := "123456789abcdef0123456789abcedf012" |}.
Proof.
  split; [discriminate|]. split; [discriminate|]. split; [discriminate|].
  apply (top_level_config_round_trip "https://codacy.example.com"
           "123456789abcdef0123456789abcedf012" None None);
    [discriminate | discriminate | discriminate | left; reflexivity].
Defined.

(** C6, as stated, fails: construction accepts two named entries with the
    same name and keeps both. *)
Lemma duplicate_names_accepted :
  exists registry,
    CodacyConfig.fromConfig duplicate_names_config = Ok registry /\
    ~ NoDup (map name registry).
Proof.
  eexists. split; [reflexivity|].
  simpl. intros H. inversion H as [|x l Hin _]; subst.
  apply Hin. left. reflexivity.
Qed.

(** C6, amended: when construction succeeds on a configuration whose named
    entries have pairwise distinct names, no two records of the registry
    have the same name: the record named "default" made from the top-level
    block is appended only when no named entry is called "default". *)
Theorem registry_names_distinct (c : CodacyBlock) (registry : CodacyConfig.t) :
  NoDup (map block_name (named_blocks c)) ->
  CodacyConfig.fromConfig {| codacy := Some c |} = Ok registry ->
  NoDup (map name registry).
Proof.
  intros Hnamed Hok. pose proof (fromConfig_readable c registry Hok) as Hr.
  revert Hok. rewrite (fromConfig_unfold c Hr).
  assert (Hmap : map name (map instance_of_block (named_blocks c))
                 = map block_name (named_blocks c))
    by (rewrite map_map; reflexivity).
  destruct (has_named_default c) eqn:Hdef; cbn [andb].
  - destruct (truthy_str (top_baseUrl c) || truthy_str (top_externalBaseUrl c)
              || truthy_str (top_apiKey c)) eqn:Htop; [discriminate|].
    apply orb_false_iff in Htop as [Htop Hk].
    apply orb_false_iff in Htop as [Hb _].
    destruct (CodacyConfig.unnamedAllPresent _ _) as [[b k]|] eqn:Hall.
    + apply unnamedAllPresent_Some in Hall as (_ & _ & Hb' & _). congruence.
    + rewrite Hb, Hk. cbn. intros [= <-]. rewrite Hmap. exact Hnamed.
  - destruct (CodacyConfig.unnamedAllPresent _ _) as [[b k]|] eqn:Hall.
    + intros [= <-]. rewrite map_app. apply NoDup_app.
      * rewrite Hmap. exact Hnamed.
      * simpl. constructor; [tauto | constructor].
      * intros a Ha [<- | []]. revert Ha.
        apply no_named_default_not_in. exact Hdef.
    + destruct (negb _ && negb _); [|discriminate].
      intros [= <-]. rewrite Hmap. exact Hnamed.
Qed.

Lemma registry_names_distinct_witness :
  NoDup (map name
    [ {| name := "other"; baseUrl := "https://codacy-other.example.com";
         externalBaseUrl := None;
         apiKey := "abcdef0123456789abcedf0123456789abc" |};
      {| name := "default"; baseUrl := "https://codacy.example.com";
         externalBaseUrl := None;
         apiKey := "123456789abcdef0123456789abcedf012" |} ]).
Proof.
  apply (registry_names_distinct two_instances_block).
  - simpl. constructor; [simpl; tauto | constructor].
  - reflexivity.
Defined.

(** C7, as stated, fails: with [baseUrl] given without [apiKey] and a named
    "default" entry, construction fails with the conflict error, not with
    the incompleteness error. *)
Lemma partial_block_with_named_default_conflicts :
  xorb (truthy_str (top_baseUrl named_default_partial_block))
       (truthy_str (top_apiKey named_default_partial_block)) = true /\
  CodacyConfig.fromConfig {| codacy := Some named_default_partial_block |}
  = Throw (Error CodacyConfig.conflict_message) /\
  CodacyConfig.fromConfig {| codacy := Some named_default_partial_block |}
  <> Throw (Error CodacyConfig.partial_message).
Proof.
  split; [reflexivity|]. split; [reflexivity|].
  intros H. vm_compute in H. discriminate H.
Qed.

(** C7, amended: on a configuration in which no configured string is empty
    (the reader throws on an empty string before either check),
    construction fails with the conflict error when a named entry is called
    "default" and one of the top-level [baseUrl], [externalBaseUrl],
    [apiKey] is present; it fails with the incompleteness error when no
    named entry is called "default" and exactly one of [baseUrl] and
    [apiKey] is present; with neither of the two present it never fails
    with the incompleteness error, whatever [externalBaseUrl] is. The two
    errors have different messages. *)
Theorem construction_conflict_and_incompleteness (c : CodacyBlock) :
  readable c = true ->
  (has_named_default c = true ->
   truthy_str (top_baseUrl c) || truthy_str (top_externalBaseUrl c)
   || truthy_str (top_apiKey c) = true ->
   CodacyConfig.fromConfig {| codacy := Some c |}
   = Throw (Error CodacyConfig.conflict_message)) /\
  (has_named_default c = false ->
   xorb (truthy_str (top_baseUrl c)) (truthy_str (top_apiKey c)) = true ->
   CodacyConfig.fromConfig {| codacy := Some c |}
   = Throw (Error CodacyConfig.partial_message)) /\
  (truthy_str (top_baseUrl c) = false ->
   truthy_str (top_apiKey c) = false ->
   CodacyConfig.fromConfig {| codacy := Some c |}
   <> Throw (Error CodacyConfig.partial_message)) /\
  CodacyConfig.conflict_message <> CodacyConfig.partial_message.
Proof.
  intros Hr. rewrite (fromConfig_unfold c Hr).
  repeat split.
  - intros -> ->. reflexivity.
  - intros -> Hxor. cbn [andb].
    destruct (CodacyConfig.unnamedAllPresent _ _) as [[b k]|] eqn:Hall.
    + apply unnamedAllPresent_Some in Hall as (_ & _ & Hb & Hk).
      rewrite Hb, Hk in Hxor. discriminate.
    + destruct (truthy_str (top_baseUrl c)), (truthy_str (top_apiKey c));
        try discriminate; reflexivity.
  - intros Hb Hk.
    destruct (has_named_default c && _).
    + intros H. vm_compute in H. discriminate H.
    + destruct (CodacyConfig.unnamedAllPresent _ _) as [[b k]|] eqn:Hall;
        [discriminate|].
      rewrite Hb, Hk. discriminate.
  - intros H. vm_compute in H. discriminate H.
Qed.

Lemma construction_conflict_and_incompleteness_witness :
  CodacyConfig.fromConfig {| codacy := Some named_default_partial_block |}
  = Throw (Error CodacyConfig.conflict_message) /\
  CodacyConfig.fromConfig
    {| codacy := Some {| top_baseUrl := Some "https://codacy.example.com";
                         top_externalBaseUrl := None;
                         top_apiKey := None;
                         top_instances := None |} |}
  = Throw (Error CodacyConfig.partial_message).
Proof.
  split.
  - apply (proj1 (construction_conflict_and_incompleteness
                    named_default_partial_block eq_refl)); reflexivity.
  - apply (proj1 (proj2 (construction_conflict_and_incompleteness
                           {| top_baseUrl := Some "https://codacy.example.com";
                              top_externalBaseUrl := None;
                              top_apiKey := None;
                              top_instances := None |} eq_refl)));
      reflexivity.
Defined.

(** C8, as stated, fails: the error for an explicit "default" and the error
    for an omitted name carry the same message. *)
Lemma default_error_message_not_distinct :
  exists message,
    CodacyConfig.getInstanceConfig [] (Some "default")
    = Throw (Error message) /\
    CodacyConfig.getInstanceConfig [] None = Throw (Error message).
Proof.
  eexists. split; reflexivity.
Qed.

(** C8, amended: when the name is omitted, empty or "default" and no record
    is named "default", resolution fails with the "no default instance"
    error, and the message is the same in the three cases. *)
Theorem no_default_instance_error
  (instances : CodacyConfig.t) (codacyName : option string) :
  codacyName = None \/ codacyName = Some "" \/ codacyName = Some "default" ->
  ~ In "default" (map name instances) ->
  CodacyConfig.getInstanceConfig instances codacyName
  = Throw (Error CodacyConfig.no_default_message).
Proof.
  intros Hname Habsent.
  apply find_instance_absent in Habsent.
  unfold CodacyConfig.getInstanceConfig.
  destruct Hname as [-> | [-> | ->]]; cbn;
    change "default" with DEFAULT_CODACY_NAME in Habsent;
    rewrite Habsent; reflexivity.
Qed.

Lemma no_default_instance_error_witness :
  CodacyConfig.getInstanceConfig
    [ {| name := "other"; baseUrl := "https://codacy-other.example.com";
         externalBaseUrl := None;
         apiKey := "123456789abcdef0123456789abcedf012" |} ]
    (Some "default")
  = Throw (Error CodacyConfig.no_default_message).
Proof.
  apply no_default_instance_error.
  - right. right. reflexivity.
  - simpl. intros [H | []]. discriminate H.
Defined.

(** ** The aggregation *)

Section Aggregation.

Variable rt : runtime.

(** Once the instance is resolved, [getFindings] is the aggregation. *)
Lemma getFindings_resolved this componentKey instanceName instance :
  CodacyConfig.getInstanceConfig this instanceName = Ok instance ->
  getFindings rt this componentKey instanceName
  = aggregate rt instance componentKey.
Proof.
  intros H. unfold getFindings. rewrite H. reflexivity.
Qed.

Lemma getFindings_unresolved this componentKey instanceName e :
  CodacyConfig.getInstanceConfig this instanceName = Throw e ->
  getFindings rt this componentKey instanceName = Raise e.
Proof.
  intros H. unfold getFindings. rewrite H. reflexivity.
Qed.

Lemma aggregate_unfold instance componentKey :
  aggregate rt instance componentKey
  = bind (callApi (baseUrl instance) (security_path componentKey)
            (apiKey instance))
      (after_security rt instance).
Proof. reflexivity. Qed.

(** The first call answered with a status other than 200. *)
Lemma exec_security_failed instance componentKey status body rest :
  status <> 200%Z ->
  exec (aggregate rt instance componentKey) (Response status body :: rest)
  = ([api_request (baseUrl instance) (security_path componentKey)
        (apiKey instance)],
     Some (Ok None)).
Proof.
  intros H. apply Z.eqb_neq in H.
  rewrite aggregate_unfold. unfold callApi. cbn [bind exec].
  rewrite H. reflexivity.
Qed.

(** The first call answered 200 with a decoded body. *)
Lemma exec_security_ok instance componentKey security rest :
  exec (aggregate rt instance componentKey)
    (Response 200 (Some security) :: rest)
  = (api_request (baseUrl instance) (security_path componentKey)
       (apiKey instance)
     :: fst (exec (after_security rt instance (Some security)) rest),
     snd (exec (after_security rt instance (Some security)) rest)).
Proof. reflexivity. Qed.

(** The second call answered with a status other than 200. *)
Lemma exec_analysis_failed instance security status body rest :
  status <> 200%Z ->
  snd (exec (after_security rt instance (Some security))
         (Response status body :: rest))
  = Some (Ok None).
Proof.
  intros H. apply Z.eqb_neq in H.
  unfold after_security, callApi.
  destruct (truthy (Some security)); cbn [negb bind exec snd];
    [|reflexivity].
  rewrite H. reflexivity.
Qed.

(** The second call answered 200 with a decoded body. *)
Lemma exec_analysis_ok instance security analysis rest :
  snd (exec (after_security rt instance (Some security))
         (Response 200 (Some analysis) :: rest))
  = Some
      (if negb (truthy (Some security)) then Ok None
       else if negb (truthy (Some analysis)) then Ok None
       else
         match get (Some analysis) "data" with
         | Throw e => Throw e
         | Ok data =>
             if negb (truthy data) then Ok None
             else match summarize rt (Some security) data with
                  | Ok summary => Ok (Some summary)
                  | Throw e => Throw e
                  end
         end).
Proof.
  unfold after_security, callApi.
  destruct (truthy (Some security)); cbn [negb bind exec snd];
    [|reflexivity].
  change (200 =? 200)%Z with true. cbn [bind exec snd].
  destruct (truthy (Some analysis)); cbn [negb bind exec snd];
    [|reflexivity].
  destruct (get (Some analysis) "data") as [data|e]; cbn [lift bind exec snd];
    [|reflexivity].
  destruct (truthy data); cbn [negb bind exec snd]; [|reflexivity].
  destruct (summarize rt (Some security) data); reflexivity.
Qed.

(** At most two requests are issued, whatever the outcomes. *)
Lemma at_most_two_requests this componentKey instanceName outcomes :
  (length (fst (exec (getFindings rt this componentKey instanceName)
                  outcomes)) <= 2)%nat.
Proof.
  unfold getFindings.
  destruct (CodacyConfig.getInstanceConfig this instanceName)
    as [instance|e]; cbn [lift bind]; [|simpl; lia].
  rewrite aggregate_unfold. unfold callApi. cbn [bind exec].
  destruct outcomes as [|o1 rest]; [simpl; lia|].
  cbn [fst length]. apply le_n_S.
  destruct o1 as [m|status body]; [simpl; lia|].
  destruct (status =? 200)%Z; [|simpl; lia].
  destruct body as [security|]; [|simpl; lia].
  cbn [bind]. unfold after_security.
  destruct (truthy (Some security)); cbn [negb]; [|simpl; lia].
  unfold callApi. cbn [bind exec].
  destruct rest as [|o2 rest]; [simpl; lia|].
  cbn [fst length]. apply le_n_S.
  destruct o2 as [m|status2 body2]; [simpl; lia|].
  destruct (status2 =? 200)%Z; [|simpl; lia].
  destruct body2 as [analysis|]; [|simpl; lia].
  cbn [bind].
  destruct (truthy (Some analysis)); cbn [negb]; [|simpl; lia].
  destruct (get (Some analysis) "data") as [data|e]; cbn [lift bind];
    [|simpl; lia].
  destruct (truthy data); cbn [negb]; [|simpl; lia].
  destruct (summarize rt (Some security) data); simpl; lia.
Qed.

(** The accumulation of one field of a record into a numeric sum: a
    number adds itself when truthy and 100 when it is 0 or NaN; an absent
    field adds 100. *)
Lemma add_metric_number t members field x :
  assoc field members = Some (JNum x) ->
  add_metric rt (JNum t) (Some (JObj members)) field
  = Ok (JNum (t + (if truthy (Some (JNum x)) then x else 100))%float).
Proof.
  intros H. unfold add_metric. cbn [get get_own result_bind]. rewrite H.
  destruct (truthy (Some (JNum x))); reflexivity.
Qed.

Lemma add_metric_absent t members field :
  assoc field members = None ->
  add_metric rt (JNum t) (Some (JObj members)) field
  = Ok (JNum (t + 100)%float).
Proof.
  intros H. unfold add_metric. cbn [get get_own result_bind]. rewrite H.
  reflexivity.
Qed.

(** A body with a [data] member is an object. *)
Lemma data_member_object (o v : json) :
  get_own o "data" = Some v ->
  exists members, o = JObj members /\ assoc "data" members = Some v.
Proof.
  destruct o as [|b|x|s|items|members]; try discriminate.
  intros H. exists members. auto.
Qed.

(** A body without [data] member gives no data. *)
Lemma no_data_member (o : json) :
  get_own o "data" = None ->
  truthy (Some o) = false \/ get (Some o) "data" = Ok None.
Proof.
  intros H. destruct o; simpl; auto; right; simpl in H; rewrite H;
    reflexivity.
Qed.

End Aggregation.

(** C3: with the instance resolved, a first (security/dashboard) response
    whose status is not 200 makes [getFindings] return [undefined] after
    that single request; a second (analysis) response whose status is not
    200, or whose decoded body has no [data] member, makes it return
    [undefined] as well; no more than two requests are ever issued. *)
Theorem getFindings_absent_on_failed_call
  (rt : runtime) (this : DefaultCodacyInfoProvider.t)
  (componentKey : string) (instanceName : option string)
  (instance : CodacyInstanceConfig) :
  CodacyConfig.getInstanceConfig this instanceName = Ok instance ->
  (forall status body rest,
      status <> 200%Z ->
      exec (getFindings rt this componentKey instanceName)
        (Response status body :: rest)
      = ([api_request (baseUrl instance) (security_path componentKey)
            (apiKey instance)],
         Some (Ok None))) /\
  (forall security status body rest,
      status <> 200%Z ->
      snd (exec (getFindings rt this componentKey instanceName)
             (Response 200 (Some security) :: Response status body :: rest))
      = Some (Ok None)) /\
  (forall security analysis rest,
      get_own analysis "data" = None ->
      snd (exec (getFindings rt this componentKey instanceName)
             (Response 200 (Some security)
              :: Response 200 (Some analysis) :: rest))
      = Some (Ok None)) /\
  (forall outcomes,
      (length (fst (exec (getFindings rt this componentKey instanceName)
                      outcomes)) <= 2)%nat).
Proof.
  intros Hres. rewrite (getFindings_resolved rt _ _ _ _ Hres).
  repeat split.
  - intros status body rest H. apply exec_security_failed. exact H.
  - intros security status body rest H.
    rewrite exec_security_ok. cbn [snd].
    apply exec_analysis_failed. exact H.
  - intros security analysis rest H.
    rewrite exec_security_ok. cbn [snd]. rewrite exec_analysis_ok.
    destruct (negb (truthy (Some security))); [reflexivity|].
    destruct (no_data_member analysis H) as [-> | ->]; [reflexivity|].
    destruct (negb (truthy (Some analysis))); reflexivity.
  - intros outcomes.
    rewrite <- (getFindings_resolved rt _ _ _ _ Hres).
    apply at_most_two_requests.
Qed.

Lemma getFindings_absent_on_failed_call_witness :
  CodacyConfig.getInstanceConfig [sample_instance] (Some "default")
  = Ok sample_instance /\
  exec (getFindings sample_runtime [sample_instance] "dummyComponentKey"
          (Some "default"))
    [Response 500 None]
  = ([api_request (baseUrl sample_instance)
        (security_path "dummyComponentKey") (apiKey sample_instance)],
     Some (Ok None)) /\
  snd (exec (getFindings sample_runtime [sample_instance]
               "dummyComponentKey" (Some "default"))
         [Response 200 (Some sample_security); Response 500 None])
  = Some (Ok None) /\
  snd (exec (getFindings sample_runtime [sample_instance]
               "dummyComponentKey" (Some "default"))
         [Response 200 (Some sample_security);
          Response 200 (Some (JObj [("invalid", JBool true)]))])
  = Some (Ok None).
Proof.
  split; [reflexivity|].
  pose proof (getFindings_absent_on_failed_call sample_runtime
                [sample_instance] "dummyComponentKey" (Some "default")
                sample_instance eq_refl) as (H1 & H2 & H3 & _).
  split; [|split].
  - apply H1. discriminate.
  - apply H2. discriminate.
  - apply H3. reflexivity.
Defined.

(** C9: when the analysis array is empty, [getFindings] does not fail: with
    the instance resolved and a security body that has a [data] member, it
    returns a summary whose five averages are NaN (the sums 0 divided by the
    length 0); the letter computed from NaN is F. *)
Theorem empty_analysis_array_gives_nan
  (rt : runtime) (this : DefaultCodacyInfoProvider.t)
  (componentKey : string) (instanceName : option string)
  (instance : CodacyInstanceConfig)
  (security security_data analysis : json) :
  CodacyConfig.getInstanceConfig this instanceName = Ok instance ->
  get_own security "data" = Some security_data ->
  security_data <> JNull ->
  get_own analysis "data" = Some (JArr []) ->
  snd (exec (getFindings rt this componentKey instanceName)
         [Response 200 (Some security); Response 200 (Some analysis)])
  = Some (Ok (Some
       {| grade := PrimFloat.nan;
          grade_letter := "F";
          code_coverage := PrimFloat.nan;
          issuesPercentage := PrimFloat.nan;
          complexFilesPercentage := PrimFloat.nan;
          duplicationPercentage := PrimFloat.nan;
          totalOpen := get_own security_data "totalOpen";
          totalClosed := get_own security_data "totalClosed";
          onTrack := get_own security_data "onTrack";
          closedOnTime := get_own security_data "closedOnTime" |})).
Proof.
  intros Hres Hsec Hnull Hdata.
  rewrite (getFindings_resolved rt _ _ _ _ Hres).
  rewrite exec_security_ok. cbn [snd]. rewrite exec_analysis_ok.
  apply data_member_object in Hsec as (ms & -> & Hsec).
  apply data_member_object in Hdata as (ma & -> & Hdata).
  cbn [truthy negb get get_own]. rewrite Hdata. cbn [truthy negb].
  unfold summarize. cbn [for_in_keys length seq map for_in result_bind].
  cbn [get get_own]. rewrite Hsec.
  destruct security_data; try contradiction; reflexivity.
Qed.

Lemma empty_analysis_array_gives_nan_witness :
  snd (exec (getFindings sample_runtime [sample_instance]
               "dummyComponentKey" None)
         [Response 200 (Some sample_security);
          Response 200 (Some (JObj [("data", JArr [])]))])
  = Some (Ok (Some
       {| grade := PrimFloat.nan;
          grade_letter := "F";
          code_coverage := PrimFloat.nan;
          issuesPercentage := PrimFloat.nan;
          complexFilesPercentage := PrimFloat.nan;
          duplicationPercentage := PrimFloat.nan;
          totalOpen := Some (JNum 7);
          totalClosed := Some (JNum 3);
          onTrack := Some (JNum 5);
          closedOnTime := Some (JNum 2) |})).
Proof.
  apply (empty_analysis_array_gives_nan sample_runtime [sample_instance]
           "dummyComponentKey" None sample_instance sample_security
           (JObj [ ("totalOpen", JNum 7); ("totalClosed", JNum 3);
                   ("onTrack", JNum 5); ("closedOnTime", JNum 2) ])
           (JObj [("data", JArr [])]));
    [reflexivity | reflexivity | discriminate | reflexivity].
Defined.

(** C1, as stated, fails: on the two records the summary has grade 100 and
    letter A, but its [issuesPercentage] is 100 and not 50: the value 0 of
    the first record is falsy, so the fallback 100 is added for it too. *)
Lemma two_records_issues_average_is_not_50 :
  exists summary,
    snd (exec (getFindings sample_runtime [sample_instance]
                 "dummyComponentKey" None)
           [Response 200 (Some sample_security);
            Response 200 (Some two_records_analysis)])
    = Some (Ok (Some summary)) /\
    grade summary = 100%float /\
    grade_letter summary = "A" /\
    issuesPercentage summary = 100%float /\
    issuesPercentage summary <> 50%float.
Proof.
  eexists. split; [reflexivity|].
  repeat split.
  intros H. apply (f_equal (fun x => (x =? 50)%float)) in H.
  vm_compute in H. discriminate H.
Qed.

(** C4: a first response with status 200 whose body has no [data] member,
    followed by a well-formed analysis response, makes [getFindings] throw
    a [TypeError] instead of returning a summary or [undefined]. *)
Theorem getFindings_throws_without_security_data (rt : runtime) :
  snd (exec (getFindings rt [sample_instance] "dummyComponentKey"
               (Some "default"))
         [Response 200 (Some (JObj [("invalid", JBool true)]));
          Response 200 (Some two_records_analysis)])
  = Some (Throw (TypeError
       "Cannot read properties of undefined (reading 'totalOpen')")).
Proof.
  reflexivity.
Qed.

(** C10: the request of the second call is built from the instance and the
    constant path under the organization MonkeyECX, whatever the component
    key; and two invocations with different component keys that resolve
    the same instance name and receive the same outcomes return the same
    result, hence the same averaged metrics and letter. *)
Theorem analysis_call_ignores_componentKey
  (rt : runtime) (this : DefaultCodacyInfoProvider.t)
  (instanceName : option string) :
  (forall componentKey outcomes r,
      nth_error (fst (exec (getFindings rt this componentKey instanceName)
                        outcomes)) 1 = Some r ->
      exists instance,
        CodacyConfig.getInstanceConfig this instanceName = Ok instance /\
        r = api_request (baseUrl instance) analysis_path (apiKey instance) /\
        req_url r
        = baseUrl instance
          ++ "/search/analysis/organizations/gh/MonkeyECX/repositories ") /\
  (forall key1 key2 outcomes,
      snd (exec (getFindings rt this key1 instanceName) outcomes)
      = snd (exec (getFindings rt this key2 instanceName) outcomes)).
Proof.
  split.
  - intros componentKey outcomes r.
    destruct (CodacyConfig.getInstanceConfig this instanceName)
      as [instance|e] eqn:Hres.
    + rewrite (getFindings_resolved rt _ _ _ _ Hres).
      intros H. exists instance. split; [reflexivity|].
      assert (Hr : r = api_request (baseUrl instance) analysis_path
                         (apiKey instance)).
      { revert H. rewrite aggregate_unfold. unfold callApi.
        cbn [bind exec].
        destruct outcomes as [|o1 rest]; [discriminate|].
        cbn [fst nth_error].
        destruct o1 as [m|status body]; [discriminate|].
        destruct (status =? 200)%Z; [|discriminate].
        destruct body as [security|]; [|discriminate].
        cbn [bind]. unfold after_security.
        destruct (truthy (Some security)); cbn [negb]; [|discriminate].
        unfold callApi. cbn [bind exec].
        destruct rest as [|o2 rest]; cbn [fst nth_error]; congruence. }
      split; [exact Hr|]. rewrite Hr. reflexivity.
    + rewrite (getFindings_unresolved rt _ _ _ _ Hres). discriminate.
  - intros key1 key2 outcomes.
    destruct (CodacyConfig.getInstanceConfig this instanceName)
      as [instance|e] eqn:Hres.
    + rewrite !(getFindings_resolved rt _ _ _ _ Hres).
      rewrite !aggregate_unfold. unfold callApi. cbn [bind exec].
      destruct outcomes; reflexivity.
    + rewrite !(getFindings_unresolved rt _ _ _ _ Hres). reflexivity.
Qed.

Lemma analysis_call_ignores_componentKey_witness :
  nth_error (fst (exec (getFindings sample_runtime [sample_instance]
                          "backstage" None)
                    [Response 200 (Some sample_security);
                     Response 200 (Some two_records_analysis)])) 1
  = Some (api_request "https://app.codacy.com/api/v3"
            "search/analysis/organizations/gh/MonkeyECX/repositories"
            "123456789abcdef0123456789abcedf012") /\
  snd (exec (getFindings sample_runtime [sample_instance] "backstage" None)
         [Response 200 (Some sample_security);
          Response 200 (Some two_records_analysis)])
  = snd (exec (getFindings sample_runtime [sample_instance] "MonkeyECX" None)
           [Response 200 (Some sample_security);
            Response 200 (Some two_records_analysis)]).
Proof.
  pose proof (analysis_call_ignores_componentKey sample_runtime
                [sample_instance] None) as [Hurl Hsame].
  split.
  - destruct (nth_error _ 1) as [r|] eqn:E; [|discriminate E].
    destruct (Hurl "backstage" _ r E) as (instance & Hres & -> & _).
    injection Hres as <-. reflexivity.
  - apply Hsame.
Defined.

(** * Further properties of the registry *)

Section Resolution.

Variable instances : CodacyConfig.t.

(** Resolution is one lookup of the requested name, and the error names
    what was not found. *)
Lemma getInstanceConfig_lookup (codacyName : option string) :
  CodacyConfig.getInstanceConfig instances codacyName
  = match CodacyConfig.find_instance instances (requested_name codacyName) with
    | Some instanceConfig => Ok instanceConfig
    | None =>
        Throw (Error
          (if requested_name codacyName =? DEFAULT_CODACY_NAME
           then CodacyConfig.no_default_message
           else CodacyConfig.not_found_message (requested_name codacyName)))
    end.
Proof.
  unfold CodacyConfig.getInstanceConfig, requested_name.
  destruct codacyName as [n|]; [|reflexivity].
  cbn [truthy_str].
  destruct (n =? "") eqn:E; cbn [negb orb]; [reflexivity|].
  destruct (n =? DEFAULT_CODACY_NAME) eqn:D; [|reflexivity].
  apply String.eqb_eq in D. subst n. reflexivity.
Qed.

Lemma find_instance_first (before after : CodacyConfig.t)
  (c : CodacyInstanceConfig) :
  instances = (before ++ c :: after)%list ->
  (forall x, In x before -> name x <> name c) ->
  CodacyConfig.find_instance instances (name c) = Some c.
Proof.
  intros -> H. unfold CodacyConfig.find_instance.
  induction before as [|x before IH]; simpl.
  - rewrite String.eqb_refl. reflexivity.
  - assert (Hx : name x <> name c) by (apply H; left; reflexivity).
    apply String.eqb_neq in Hx. rewrite Hx.
    apply IH. intros y Hy. apply H. right. exact Hy.
Qed.

End Resolution.

(** X1: a resolved record belongs to the registry and carries the requested
    name, which is "default" for an omitted or empty name. *)
Theorem getInstanceConfig_sound
  (instances : CodacyConfig.t) (codacyName : option string)
  (c : CodacyInstanceConfig) :
  CodacyConfig.getInstanceConfig instances codacyName = Ok c ->
  In c instances /\ name c = requested_name codacyName.
Proof.
  rewrite getInstanceConfig_lookup. unfold CodacyConfig.find_instance.
  destruct (find _ instances) as [c'|] eqn:F; [|discriminate].
  intros [= <-]. apply find_some in F as [Hin Hname].
  apply String.eqb_eq in Hname. auto.
Qed.

Lemma getInstanceConfig_sound_witness :
  In DUMMY_OTHER_INSTANCE [DUMMY_DEFAULT_INSTANCE; DUMMY_OTHER_INSTANCE] /\
  name DUMMY_OTHER_INSTANCE = requested_name (Some "other").
Proof.
  apply (getInstanceConfig_sound
           [DUMMY_DEFAULT_INSTANCE; DUMMY_OTHER_INSTANCE] (Some "other")).
  reflexivity.
Defined.

(** X2: when several records carry the requested name, resolution returns
    the first of them. *)
Theorem getInstanceConfig_first_match
  (before after : CodacyConfig.t) (c : CodacyInstanceConfig)
  (codacyName : option string) :
  name c = requested_name codacyName ->
  (forall x, In x before -> name x <> name c) ->
  CodacyConfig.getInstanceConfig (before ++ c :: after)%list codacyName = Ok c.
Proof.
  intros Hname Hbefore. rewrite getInstanceConfig_lookup, <- Hname.
  rewrite (find_instance_first _ before after c eq_refl Hbefore).
  reflexivity.
Qed.

Lemma getInstanceConfig_first_match_witness :
  CodacyConfig.getInstanceConfig
    ([DUMMY_DEFAULT_INSTANCE]
     ++ DUMMY_OTHER_INSTANCE
     :: [ {| name := "other"; baseUrl := "https://codacy-third.example.com";
             externalBaseUrl := None; apiKey := "0123456789abcdef" |} ])%list
    (Some "other")
  = Ok DUMMY_OTHER_INSTANCE.
Proof.
  apply getInstanceConfig_first_match.
  - reflexivity.
  - intros x [<- | []]. discriminate.
Defined.

(** X3: resolving a name other than "default" that no record carries fails
    with the "not found" error, whose message ends with that name; the
    registry is not searched for a fallback. *)
Theorem getInstanceConfig_named_not_found
  (instances : CodacyConfig.t) (n : string) :
  n <> "" -> n <> "default" ->
  ~ In n (map name instances) ->
  CodacyConfig.getInstanceConfig instances (Some n)
  = Throw (Error ("Couldn't find a codacy instance in the config with name "
                  ++ n)).
Proof.
  intros Hne Hnd Habsent. rewrite getInstanceConfig_lookup.
  unfold requested_name.
  apply String.eqb_neq in Hne. rewrite Hne.
  rewrite (find_instance_absent _ _ Habsent).
  apply String.eqb_neq in Hnd.
  change (n =? DEFAULT_CODACY_NAME) with (n =? "default"). rewrite Hnd.
  reflexivity.
Qed.

Lemma getInstanceConfig_named_not_found_witness :
  CodacyConfig.getInstanceConfig [DUMMY_DEFAULT_INSTANCE] (Some "other")
  = Throw (Error ("Couldn't find a codacy instance in the config with name "
                  ++ "other")).
Proof.
  apply getInstanceConfig_named_not_found.
  - discriminate.
  - discriminate.
  - simpl. intros [H | []]. discriminate H.
Defined.

Section Construction.

Variable c : CodacyBlock.

(** What a successful construction returns: the named entries in order,
    then the record of the top-level block when it is complete. *)
Lemma fromConfig_contents (registry : CodacyConfig.t) :
  CodacyConfig.fromConfig {| codacy := Some c |} = Ok registry ->
  exists tail,
    registry = (map instance_of_block (named_blocks c) ++ tail)%list /\
    ((tail = [] /\
      truthy_str (top_baseUrl c) = false /\
      truthy_str (top_apiKey c) = false) \/
     (exists b k,
        top_baseUrl c = Some b /\ top_apiKey c = Some k /\
        truthy_str (top_baseUrl c) = true /\
        truthy_str (top_apiKey c) = true /\
        has_named_default c = false /\
        tail = [unnamed_record b (top_externalBaseUrl c) k])).
Proof.
  intros Hok. pose proof (fromConfig_readable c registry Hok) as Hr.
  revert Hok. rewrite (fromConfig_unfold c Hr).
  destruct (has_named_default c && _) eqn:Hconf; [discriminate|].
  destruct (CodacyConfig.unnamedAllPresent _ _) as [[b k]|] eqn:Hall.
  - intros [= <-]. eexists. split; [reflexivity|]. right.
    apply unnamedAllPresent_Some in Hall as (Hb & Hk & Tb & Tk).
    exists b, k. cbn [fst snd] in Hb, Hk.
    rewrite Tb in Hconf. cbn [orb] in Hconf.
    rewrite andb_true_r in Hconf. auto 10.
  - destruct (truthy_str (top_baseUrl c)) eqn:Tb,
      (truthy_str (top_apiKey c)) eqn:Tk; cbn; try discriminate.
    intros [= <-]. exists []. rewrite app_nil_r. auto.
Qed.

End Construction.

(** X4: construction succeeds exactly when no configured string is empty
    (the reader throws on an empty string), a named "default" entry is not
    combined with a present top-level field, and the top-level [baseUrl]
    and [apiKey] are both present or both absent. *)
Theorem fromConfig_succeeds_iff (c : CodacyBlock) :
  (exists registry,
      CodacyConfig.fromConfig {| codacy := Some c |} = Ok registry)
  <->
  readable c = true /\
  (has_named_default c
   && (truthy_str (top_baseUrl c) || truthy_str (top_externalBaseUrl c)
       || truthy_str (top_apiKey c)) = false) /\
  truthy_str (top_baseUrl c) = truthy_str (top_apiKey c).
Proof.
  split.
  - intros [registry H].
    pose proof (fromConfig_readable c registry H) as Hr.
    split; [exact Hr|]. revert H. rewrite (fromConfig_unfold c Hr).
    destruct (has_named_default c && _); [discriminate|].
    intros H. split; [reflexivity|].
    destruct (CodacyConfig.unnamedAllPresent _ _) as [[b k]|] eqn:Hall.
    + apply unnamedAllPresent_Some in Hall as (_ & _ & -> & ->).
      reflexivity.
    + destruct (truthy_str (top_baseUrl c)), (truthy_str (top_apiKey c));
        try reflexivity; discriminate.
  - intros (Hr & Hconf & Heq). rewrite (fromConfig_unfold c Hr), Hconf.
    destruct (CodacyConfig.unnamedAllPresent _ _) as [[b k]|] eqn:Hall;
      [eexists; reflexivity|].
    rewrite Heq.
    destruct (truthy_str (top_apiKey c)) eqn:Tk; cbn;
      [|eexists; reflexivity].
    exfalso. revert Hall. unfold CodacyConfig.unnamedAllPresent.
    destruct (top_baseUrl c), (top_apiKey c); try discriminate.
    rewrite Heq, Tk. discriminate.
Qed.

Lemma fromConfig_succeeds_iff_witness :
  exists registry,
    CodacyConfig.fromConfig {| codacy := Some two_instances_block |}
    = Ok registry.
Proof.
  apply (proj2 (fromConfig_succeeds_iff two_instances_block)).
  repeat split.
Defined.

(** X5: a top-level [externalBaseUrl] given without [baseUrl] and [apiKey]
    is accepted and dropped: when no configured string is empty and no
    named entry is called "default", construction succeeds and the registry
    is the named entries alone, in order, whatever the value of
    [externalBaseUrl]. *)
Theorem lone_externalBaseUrl_is_dropped (c : CodacyBlock) :
  readable c = true ->
  top_baseUrl c = None ->
  top_apiKey c = None ->
  has_named_default c = false ->
  CodacyConfig.fromConfig {| codacy := Some c |}
  = Ok (map instance_of_block (named_blocks c)).
Proof.
  intros Hr Tb Tk Hdef. rewrite (fromConfig_unfold c Hr), Hdef, Tb, Tk.
  reflexivity.
Qed.

Lemma lone_externalBaseUrl_is_dropped_witness :
  CodacyConfig.fromConfig
    {| codacy := Some
         {| top_baseUrl := None;
            top_externalBaseUrl := Some "https://codacy.example.com";
            top_apiKey := None;
            top_instances := None |} |}
  = Ok [].
Proof.
  apply (lone_externalBaseUrl_is_dropped
           {| top_baseUrl := None;
              top_externalBaseUrl := Some "https://codacy.example.com";
              top_apiKey := None;
              top_instances := None |}); reflexivity.
Defined.

(** X6: on a registry that construction returned, the default instance
    resolves exactly when one was configured, as a named "default" entry or
    as a complete top-level block. *)
Theorem default_resolves_iff_configured
  (c : CodacyBlock) (registry : CodacyConfig.t) :
  CodacyConfig.fromConfig {| codacy := Some c |} = Ok registry ->
  ((exists r, CodacyConfig.getInstanceConfig registry None = Ok r)
   <->
   has_named_default c
   || (truthy_str (top_baseUrl c) && truthy_str (top_apiKey c)) = true).
Proof.
  intros Hok.
  destruct (fromConfig_contents c registry Hok) as (tail & -> & Htail).
  rewrite getInstanceConfig_lookup. cbn [requested_name].
  unfold CodacyConfig.find_instance.
  destruct (find _ _) as [r|] eqn:F.
  - split; [intros _|intros _; eexists; reflexivity].
    apply find_some in F as [Hin Hname]. apply String.eqb_eq in Hname.
    destruct Htail as [(-> & _ & _) | (b & k & _ & _ & -> & -> & _)];
      [|destruct (has_named_default c); reflexivity].
    rewrite app_nil_r in Hin.
    destruct (has_named_default c) eqn:Hdef; [reflexivity|].
    exfalso. apply (no_named_default_not_in _ Hdef).
    rewrite <- Hname. apply in_map. exact Hin.
  - split; [intros [r [=]]|].
    intros Hconf. exfalso.
    assert (Hnone := find_none _ _ F).
    destruct Htail as [(-> & Tb & _) | (b & k & _ & _ & _ & _ & _ & ->)].
    + rewrite Tb in Hconf. cbn in Hconf. rewrite orb_false_r in Hconf.
      unfold has_named_default in Hconf.
      apply existsb_exists in Hconf as (x & Hx & Hname).
      specialize (Hnone (instance_of_block x)).
      rewrite app_nil_r in Hnone.
      cbn in Hnone. rewrite Hnone in Hname; [discriminate|].
      apply in_map. exact Hx.
    + assert (Hin : In (unnamed_record b (top_externalBaseUrl c) k)
                      (map instance_of_block (named_blocks c)
                       ++ [unnamed_record b (top_externalBaseUrl c) k]))
        by (apply in_or_app; right; left; reflexivity).
      apply Hnone in Hin. discriminate Hin.
Qed.

Lemma default_resolves_iff_configured_witness :
  CodacyConfig.fromConfig DUMMY_SIMPLE_CONFIG = Ok [DUMMY_DEFAULT_INSTANCE] /\
  exists r,
    CodacyConfig.getInstanceConfig [DUMMY_DEFAULT_INSTANCE] None = Ok r.
Proof.
  split; [reflexivity|].
  apply (proj2 (default_resolves_iff_configured
                  {| top_baseUrl := Some "https://codacy.example.com";
                     top_externalBaseUrl := None;
                     top_apiKey := Some "123456789abcdef0123456789abcedf012";
                     top_instances := None |}
                  [DUMMY_DEFAULT_INSTANCE] eq_refl)).
  reflexivity.
Defined.

(** X7: a named entry survives construction unchanged: on the registry that
    construction returned, the name of the first entry that carries it
    resolves to that entry's [baseUrl], [externalBaseUrl] and [apiKey], and
    [getBaseUrl] returns its two URLs. *)
Theorem named_entry_round_trip
  (c : CodacyBlock) (registry : CodacyConfig.t)
  (before after : list InstanceBlock) (b : InstanceBlock) :
  CodacyConfig.fromConfig {| codacy := Some c |} = Ok registry ->
  named_blocks c = (before ++ b :: after)%list ->
  block_name b <> "" ->
  (forall x, In x before -> block_name x <> block_name b) ->
  CodacyConfig.getInstanceConfig registry (Some (block_name b))
  = Ok {| name := block_name b; baseUrl := block_baseUrl b;
          externalBaseUrl := block_externalBaseUrl b;
          apiKey := block_apiKey b |} /\
  getBaseUrl registry (Some (block_name b))
  = Ok (block_baseUrl b, block_externalBaseUrl b).
Proof.
  intros Hok Hnamed Hne Hbefore.
  destruct (fromConfig_contents c registry Hok) as (tail & -> & _).
  assert (Hres : CodacyConfig.getInstanceConfig
                   (map instance_of_block (named_blocks c) ++ tail)%list
                   (Some (block_name b))
                 = Ok (instance_of_block b)).
  { rewrite getInstanceConfig_lookup. unfold requested_name.
    apply String.eqb_neq in Hne. rewrite Hne.
    rewrite Hnamed, map_app, <- app_assoc. cbn [map app].
    change (block_name b) with (name (instance_of_block b)).
    rewrite (find_instance_first _ (map instance_of_block before)
               (map instance_of_block after ++ tail)%list
               (instance_of_block b) eq_refl); [reflexivity|].
    intros x Hx. apply in_map_iff in Hx as (y & <- & Hy).
    exact (Hbefore y Hy). }
  split; [exact Hres|].
  unfold getBaseUrl. rewrite Hres. reflexivity.
Qed.

Lemma named_entry_round_trip_witness :
  CodacyConfig.getInstanceConfig
    [ DUMMY_OTHER_INSTANCE
      ; {| name := "default"; baseUrl := "https://codacy.example.com";
           externalBaseUrl := None;
           apiKey := "123456789abcdef0123456789abcedf012" |} ]
    (Some "other")
  = Ok {| name := "other"; baseUrl := "https://codacy-other.example.com";
          externalBaseUrl := None;
          apiKey := "123456789abcdef0123456789abcedf012" |} /\
  getBaseUrl
    [ DUMMY_OTHER_INSTANCE
      ; {| name := "default"; baseUrl := "https://codacy.example.com";
           externalBaseUrl := None;
           apiKey := "123456789abcdef0123456789abcedf012" |} ]
    (Some "other")
  = Ok ("https://codacy-other.example.com", None).
Proof.
  apply (named_entry_round_trip
           {| top_baseUrl := Some "https://codacy.example.com";
              top_externalBaseUrl := None;
              top_apiKey := Some "123456789abcdef0123456789abcedf012";
              top_instances := Some
                [ {| block_name := "other";
                     block_baseUrl := "https://codacy-other.example.com";
                     block_externalBaseUrl := None;
                     block_apiKey := "123456789abcdef0123456789abcedf012" |} ] |}
           _ [] []
           {| block_name := "other";
              block_baseUrl := "https://codacy-other.example.com";
              block_externalBaseUrl := None;
              block_apiKey := "123456789abcdef0123456789abcedf012" |}).
  - reflexivity.
  - reflexivity.
  - discriminate.
  - intros x [].
Defined.

(** * Further properties of the aggregation *)

Section Calls.

Variable rt : runtime.
Variable instance : CodacyInstanceConfig.
Variable componentKey : string.

(** The second call and what follows it issue at most the analysis
    request. *)
Lemma after_security_requests (security : value) outcomes :
  exists n,
    fst (exec (after_security rt instance security) outcomes)
    = firstn n [api_request (baseUrl instance) analysis_path
                  (apiKey instance)].
Proof.
  unfold after_security.
  destruct (truthy security); cbn [negb]; [|exists 0%nat; reflexivity].
  unfold callApi. cbn [bind exec].
  destruct outcomes as [|o rest]; [exists 1%nat; reflexivity|].
  exists 1%nat. cbn [fst firstn]. f_equal.
  destruct o as [m|status body]; [reflexivity|].
  destruct (status =? 200)%Z; [|reflexivity].
  destruct body as [analysis|]; [|reflexivity].
  cbn [bind].
  destruct (truthy (Some analysis)); cbn [negb]; [|reflexivity].
  destruct (get (Some analysis) "data") as [data|e]; cbn [lift bind];
    [|reflexivity].
  destruct (truthy data); cbn [negb]; [|reflexivity].
  destruct (summarize rt security data); reflexivity.
Qed.

Lemma aggregate_requests outcomes :
  exists n,
    fst (exec (aggregate rt instance componentKey) outcomes)
    = firstn n (findings_requests instance componentKey).
Proof.
  rewrite aggregate_unfold. unfold callApi. cbn [bind exec].
  destruct outcomes as [|o rest]; [exists 1%nat; reflexivity|].
  cbn [fst].
  destruct o as [m|status body]; [exists 1%nat; reflexivity|].
  destruct (status =? 200)%Z; [|exists 1%nat; reflexivity].
  destruct body as [security|]; [|exists 1%nat; reflexivity].
  cbn [bind].
  destruct (after_security_requests (Some security) rest) as [n ->].
  exists (S n). reflexivity.
Qed.

(** The first call rejected, or answered 200 with a body that is not
    JSON. *)
Lemma exec_security_rejected message rest :
  exec (aggregate rt instance componentKey) (Rejected message :: rest)
  = (firstn 1 (findings_requests instance componentKey),
     Some (Throw (FetchError message))).
Proof. reflexivity. Qed.

Lemma exec_security_not_json rest :
  exists message,
    exec (aggregate rt instance componentKey) (Response 200 None :: rest)
    = (firstn 1 (findings_requests instance componentKey),
       Some (Throw (FetchError message))).
Proof. eexists. reflexivity. Qed.

(** The first call answered 200 with a falsy body. *)
Lemma exec_security_falsy security rest :
  truthy (Some security) = false ->
  exec (aggregate rt instance componentKey)
    (Response 200 (Some security) :: rest)
  = (firstn 1 (findings_requests instance componentKey), Some (Ok None)).
Proof.
  intros H. rewrite exec_security_ok. unfold after_security.
  rewrite H. reflexivity.
Qed.

(** The second call rejected. *)
Lemma exec_analysis_rejected security message rest :
  truthy (Some security) = true ->
  exec (aggregate rt instance componentKey)
    (Response 200 (Some security) :: Rejected message :: rest)
  = (findings_requests instance componentKey,
     Some (Throw (FetchError message))).
Proof.
  intros H. rewrite exec_security_ok. unfold after_security.
  rewrite H. reflexivity.
Qed.

End Calls.

(** X8: [getFindings] issues no request when the instance does not resolve,
    and rejects with the error of the resolution; when it resolves, the
    requests issued are an initial part of two: the security dashboard of
    the component, then the analysis search, both POSTs of an empty JSON
    object to a URL under the [baseUrl] of the resolved instance, with its
    [apiKey] in the [api-token] header. *)
Theorem getFindings_requests
  (rt : runtime) (this : DefaultCodacyInfoProvider.t)
  (componentKey : string) (instanceName : option string)
  (outcomes : list http_outcome) :
  match CodacyConfig.getInstanceConfig this instanceName with
  | Throw e =>
      exec (getFindings rt this componentKey instanceName) outcomes
      = ([], Some (Throw e))
  | Ok instance =>
      (exists n,
          fst (exec (getFindings rt this componentKey instanceName) outcomes)
          = firstn n (findings_requests instance componentKey)) /\
      forall r,
        In r (findings_requests instance componentKey) ->
        req_method r = "POST" /\ req_body r = "{}" /\
        In ("api-token", apiKey instance) (req_headers r) /\
        exists path, req_url r = baseUrl instance ++ "/" ++ path ++ " "
  end.
Proof.
  destruct (CodacyConfig.getInstanceConfig this instanceName)
    as [instance|e] eqn:Hres.
  - rewrite (getFindings_resolved rt _ _ _ _ Hres). split.
    + apply aggregate_requests.
    + intros r [<- | [<- | []]].
      * split; [reflexivity|]. split; [reflexivity|].
        split; [right; right; left; reflexivity|].
        exists (security_path componentKey). reflexivity.
      * split; [reflexivity|]. split; [reflexivity|].
        split; [right; right; left; reflexivity|].
        exists analysis_path. reflexivity.
  - rewrite (getFindings_unresolved rt _ _ _ _ Hres). reflexivity.
Qed.

(** X9: a rejected [fetch] is not caught: with the instance resolved, a
    first call that rejects, or that answers 200 with a body that is not
    JSON, makes [getFindings] reject after that single request, and a
    second call that rejects makes it reject after the two requests. *)
Theorem getFindings_propagates_rejection
  (rt : runtime) (this : DefaultCodacyInfoProvider.t)
  (componentKey : string) (instanceName : option string)
  (instance : CodacyInstanceConfig) :
  CodacyConfig.getInstanceConfig this instanceName = Ok instance ->
  (forall message rest,
      exec (getFindings rt this componentKey instanceName)
        (Rejected message :: rest)
      = (firstn 1 (findings_requests instance componentKey),
         Some (Throw (FetchError message)))) /\
  (forall rest,
      exists message,
        exec (getFindings rt this componentKey instanceName)
          (Response 200 None :: rest)
        = (firstn 1 (findings_requests instance componentKey),
           Some (Throw (FetchError message)))) /\
  (forall security message rest,
      truthy (Some security) = true ->
      exec (getFindings rt this componentKey instanceName)
        (Response 200 (Some security) :: Rejected message :: rest)
      = (findings_requests instance componentKey,
         Some (Throw (FetchError message)))).
Proof.
  intros Hres. rewrite (getFindings_resolved rt _ _ _ _ Hres).
  split; [|split].
  - intros. apply exec_security_rejected.
  - intros. apply exec_security_not_json.
  - intros. apply exec_analysis_rejected. assumption.
Qed.

Lemma getFindings_propagates_rejection_witness :
  exec (getFindings sample_runtime [sample_instance] "dummyComponentKey"
          None)
    [Response 200 (Some sample_security); Rejected "socket hang up"]
  = (findings_requests sample_instance "dummyComponentKey",
     Some (Throw (FetchError "socket hang up"))).
Proof.
  apply (getFindings_propagates_rejection sample_runtime [sample_instance]
           "dummyComponentKey" None sample_instance eq_refl).
  reflexivity.
Defined.

(** X10: the two gates test truthiness only: with the instance resolved, a
    first response 200 whose body is falsy ([null], [false], 0 or the empty
    string) gives [undefined] without a second call, and a second response
    200 whose [data] member is absent or falsy gives [undefined] after the
    two calls. *)
Theorem getFindings_absent_on_falsy_payload
  (rt : runtime) (this : DefaultCodacyInfoProvider.t)
  (componentKey : string) (instanceName : option string)
  (instance : CodacyInstanceConfig) :
  CodacyConfig.getInstanceConfig this instanceName = Ok instance ->
  (forall security rest,
      truthy (Some security) = false ->
      exec (getFindings rt this componentKey instanceName)
        (Response 200 (Some security) :: rest)
      = (firstn 1 (findings_requests instance componentKey),
         Some (Ok None))) /\
  (forall security analysis rest,
      truthy (Some security) = true ->
      truthy (get_own analysis "data") = false ->
      exec (getFindings rt this componentKey instanceName)
        (Response 200 (Some security) :: Response 200 (Some analysis) :: rest)
      = (findings_requests instance componentKey, Some (Ok None))).
Proof.
  intros Hres. rewrite (getFindings_resolved rt _ _ _ _ Hres).
  split.
  - intros. apply exec_security_falsy. assumption.
  - intros security analysis rest Hs Hd.
    rewrite exec_security_ok. unfold after_security, callApi.
    rewrite Hs. cbn [negb bind exec fst snd].
    change (200 =? 200)%Z with true. cbn [bind exec fst snd].
    destruct (truthy (Some analysis)) eqn:Ha; cbn [negb]; [|reflexivity].
    assert (Hget : get (Some analysis) "data"
                   = Ok (get_own analysis "data"))
      by (destruct analysis; try reflexivity; discriminate Ha).
    rewrite Hget. cbn [lift bind]. rewrite Hd. reflexivity.
Qed.

Lemma getFindings_absent_on_falsy_payload_witness :
  exec (getFindings sample_runtime [sample_instance] "dummyComponentKey"
          None)
    [Response 200 (Some JNull)]
  = (firstn 1 (findings_requests sample_instance "dummyComponentKey"),
     Some (Ok None)) /\
  exec (getFindings sample_runtime [sample_instance] "dummyComponentKey"
          None)
    [Response 200 (Some sample_security);
     Response 200 (Some (JObj [("data", JNum 0)]))]
  = (findings_requests sample_instance "dummyComponentKey", Some (Ok None)).
Proof.
  pose proof (getFindings_absent_on_falsy_payload sample_runtime
                [sample_instance] "dummyComponentKey" None sample_instance
                eq_refl) as [H1 H2].
  split.
  - apply H1. reflexivity.
  - apply H2; reflexivity.
Defined.

(** ** The loop over an array *)

Section ArrayKeys.

(** Printing an array index and reading it back. *)
Lemma index_key_uint (n : N) :
  NilZero.uint_of_string (index_key n) = Some (N.to_uint n).
Proof.
  unfold index_key. apply NilZero.usu.
  destruct n as [|p]; [discriminate|].
  apply DecimalPos.Unsigned.to_uint_nonnil.
Qed.

Lemma array_index_index_key (n : N) :
  (n < 4294967295)%N -> array_index (index_key n) = Some n.
Proof.
  intros H. unfold array_index.
  rewrite index_key_uint, DecimalN.Unsigned.of_to, String.eqb_refl.
  apply N.ltb_lt in H. rewrite H. reflexivity.
Qed.

Lemma index_key_not_length (n : N) : (index_key n =? "length") = false.
Proof.
  destruct (index_key n =? "length") eqn:E; [|reflexivity].
  apply String.eqb_eq in E. pose proof (index_key_uint n) as H.
  rewrite E in H. discriminate H.
Qed.

(** [items[i]] through the key of the index [i]. *)
Lemma get_array_item (items : list json) (i : nat) :
  (N.of_nat i < 4294967295)%N ->
  get (Some (JArr items)) (index_key (N.of_nat i)) = Ok (nth_error items i).
Proof.
  intros H. cbn [get get_own].
  rewrite index_key_not_length, (array_index_index_key _ H), Nat2N.id.
  reflexivity.
Qed.

End ArrayKeys.

Section ArrayLoop.

Variable rt : runtime.

Lemma loop_body_add_record (data : value) (s : totals) (i : string) :
  loop_body rt data s i = result_bind (get data i) (add_record rt s).
Proof. reflexivity. Qed.

Lemma for_in_from (items before after : list json) (s : totals) :
  items = (before ++ after)%list ->
  (N.of_nat (length items) < 4294967295)%N ->
  for_in rt
    (map (fun i => index_key (N.of_nat i))
       (seq (length before) (length after)))
    (Some (JArr items)) s
  = add_records rt after s.
Proof.
  revert before s. induction after as [|x after IH]; intros before s Hitems Hlen;
    [reflexivity|].
  cbn [length seq map for_in add_records].
  rewrite loop_body_add_record, get_array_item.
  - replace (nth_error items (length before)) with (Some x)
      by (rewrite Hitems, nth_error_app2, Nat.sub_diag by lia; reflexivity).
    cbn [result_bind].
    destruct (add_record rt s (Some x)) as [s'|e]; [|reflexivity].
    cbn [result_bind].
    replace (S (length before)) with (length (before ++ [x])%list)
      by (rewrite length_app; simpl; lia).
    apply IH; [|exact Hlen].
    rewrite Hitems, <- app_assoc. reflexivity.
  - rewrite Hitems, length_app in Hlen. simpl in Hlen. lia.
Qed.

(** On an array the loop visits the elements in order. *)
Lemma for_in_array (items : list json) (s : totals) :
  (N.of_nat (length items) < 4294967295)%N ->
  for_in rt (for_in_keys (Some (JArr items))) (Some (JArr items)) s
  = add_records rt items s.
Proof.
  intros H. exact (for_in_from items [] items s eq_refl H).
Qed.

(** The traversal of two arrays in a row. *)
Lemma add_records_app (before after : list json) (s : totals) :
  add_records rt (before ++ after) s
  = result_bind (add_records rt before s) (add_records rt after).
Proof.
  revert s. induction before as [|x before IH]; intros s; [reflexivity|].
  cbn [app add_records].
  destruct (add_record rt s (Some x)) as [s'|e]; [|reflexivity].
  cbn [result_bind]. apply IH.
Qed.

(** A [null] element stops the traversal with the [TypeError] of the read
    of its [grade]. *)
Lemma add_records_null (after : list json) (s : totals) :
  add_records rt (JNull :: after) s
  = Throw (TypeError "Cannot read properties of null (reading 'grade')").
Proof. reflexivity. Qed.

End ArrayLoop.

Section PlainRecords.

Variable rt : runtime.

Lemma add_metric_plain (t : float) (item : json) (field : string) :
  item <> JNull ->
  plain_value (get_own item field) = true ->
  add_metric rt (JNum t) (Some item) field
  = Ok (JNum (t + metric_contribution (get_own item field))%float).
Proof.
  intros Hitem Hplain. unfold add_metric.
  assert (Hget : get (Some item) field = Ok (get_own item field))
    by (destruct item; try reflexivity; contradiction).
  rewrite Hget. cbn [result_bind].
  destruct (get_own item field) as [[|b|x|str|l|ms]|];
    try discriminate Hplain; try reflexivity.
  - destruct b; reflexivity.
  - unfold metric_contribution.
    destruct (truthy (Some (JNum x))); reflexivity.
Qed.

(** Sums that are numbers stay numbers across plain records, and each
    grows by the contribution of its field. *)
Lemma add_records_plain (items : list json) (g c i x d : float) :
  Forall plain_record items ->
  add_records rt items
    {| grade_total := JNum g; code_coverage_total := JNum c;
       issuesPercentage_total := JNum i;
       complexFilesPercentage_total := JNum x;
       duplicationPercentage_total := JNum d |}
  = Ok {| grade_total :=
            JNum (fold_left (fun acc item =>
                    (acc + metric_contribution (get_own item "grade"))%float)
                    items g);
          code_coverage_total :=
            JNum (fold_left (fun acc item =>
                    (acc + metric_contribution
                             (get_own item "coveragePercentageWithDecimals"))
                    %float) items c);
          issuesPercentage_total :=
            JNum (fold_left (fun acc item =>
                    (acc + metric_contribution
                             (get_own item "issuesPercentage"))%float)
                    items i);
          complexFilesPercentage_total :=
            JNum (fold_left (fun acc item =>
                    (acc + metric_contribution
                             (get_own item "complexFilesPercentage"))%float)
                    items x);
          duplicationPercentage_total :=
            JNum (fold_left (fun acc item =>
                    (acc + metric_contribution
                             (get_own item "duplicationPercentage"))%float)
                    items d) |}.
Proof.
  intros Hall. revert g c i x d.
  induction Hall as [|item items [Hitem Hplain] _ IH]; intros g c i x d;
    [reflexivity|].
  cbn [add_records fold_left]. unfold add_record.
  cbn [grade_total code_coverage_total issuesPercentage_total
       complexFilesPercentage_total duplicationPercentage_total].
  rewrite !add_metric_plain
    by (try exact Hitem; apply Hplain; unfold metric_fields; simpl; tauto).
  cbn [result_bind]. apply IH.
Qed.

End PlainRecords.

(** C1, amended: on the two records (one with grade 100, coverage 100 and
    the three percentages at 0, one with no field) the summary has grade
    average 100 with letter A, and every other average is 100 as well, the
    [issuesPercentage] average included. This is the rule of the loop: on
    any array of records with plain metrics, each average is the sum of the
    contributions of its field divided by the length of the array, where a
    number contributes itself when it is truthy and the fallback 100 when
    it is 0 or NaN, and an absent or [null] field contributes 100. *)
Theorem two_records_averages
  (rt : runtime) (this : DefaultCodacyInfoProvider.t)
  (componentKey : string) (instanceName : option string)
  (instance : CodacyInstanceConfig) (counters : list (string * json)) :
  CodacyConfig.getInstanceConfig this instanceName = Ok instance ->
  snd (exec (getFindings rt this componentKey instanceName)
         [Response 200 (Some (JObj [("data", JObj counters)]));
          Response 200 (Some two_records_analysis)])
  = Some (Ok (Some
       {| grade := 100%float;
          grade_letter := "A";
          code_coverage := 100%float;
          issuesPercentage := 100%float;
          complexFilesPercentage := 100%float;
          duplicationPercentage := 100%float;
          totalOpen := assoc "totalOpen" counters;
          totalClosed := assoc "totalClosed" counters;
          onTrack := assoc "onTrack" counters;
          closedOnTime := assoc "closedOnTime" counters |})) /\
  (forall items : list json,
      (N.of_nat (length items) < 4294967295)%N ->
      Forall plain_record items ->
      let average field :=
        (metric_sum field items / float_of_nat (length items))%float in
      snd (exec (getFindings rt this componentKey instanceName)
             [Response 200 (Some (JObj [("data", JObj counters)]));
              Response 200 (Some (JObj [("data", JArr items)]))])
      = Some (Ok (Some
           {| grade := average "grade";
              grade_letter := calculate_grade (average "grade");
              code_coverage := average "coveragePercentageWithDecimals";
              issuesPercentage := average "issuesPercentage";
              complexFilesPercentage := average "complexFilesPercentage";
              duplicationPercentage := average "duplicationPercentage";
              totalOpen := assoc "totalOpen" counters;
              totalClosed := assoc "totalClosed" counters;
              onTrack := assoc "onTrack" counters;
              closedOnTime := assoc "closedOnTime" counters |}))) /\
  (forall x : float,
      metric_contribution (Some (JNum x))
      = if ((x =? 0) || PrimFloat.is_nan x)%float then 100%float else x) /\
  metric_contribution None = 100%float /\
  metric_contribution (Some JNull) = 100%float.
Proof.
  intros Hres.
  rewrite (getFindings_resolved rt _ _ _ _ Hres).
  split; [|split; [|split; [|split; reflexivity]]].
  - rewrite exec_security_ok. cbn [snd]. rewrite exec_analysis_ok.
    reflexivity.
  - intros items Hlen Hplain average.
    rewrite exec_security_ok. cbn [snd]. rewrite exec_analysis_ok.
    cbn [truthy negb get get_own assoc]. cbn [String.eqb Ascii.eqb Bool.eqb].
    cbn [truthy negb].
    unfold summarize. rewrite (for_in_array rt items _ Hlen).
    unfold initial_totals.
    rewrite (add_records_plain rt items _ _ _ _ _ Hplain).
    cbn [result_bind get get_own]. rewrite String.eqb_refl.
    reflexivity.
  - intros x. unfold metric_contribution. cbn [truthy].
    destruct (x =? 0)%float, (PrimFloat.is_nan x); reflexivity.
Qed.

Lemma two_records_averages_witness :
  snd (exec (getFindings sample_runtime [sample_instance]
               "dummyComponentKey" (Some "default"))
         [Response 200 (Some sample_security);
          Response 200 (Some two_records_analysis)])
  = Some (Ok (Some
       {| grade := 100%float;
          grade_letter := "A";
          code_coverage := 100%float;
          issuesPercentage := 100%float;
          complexFilesPercentage := 100%float;
          duplicationPercentage := 100%float;
          totalOpen := Some (JNum 7);
          totalClosed := Some (JNum 3);
          onTrack := Some (JNum 5);
          closedOnTime := Some (JNum 2) |})) /\
  snd (exec (getFindings sample_runtime [sample_instance]
               "dummyComponentKey" (Some "default"))
         [Response 200 (Some sample_security);
          Response 200 (Some
            (JObj [("data",
                    JArr [ JObj [("grade", JNum 95);
                                 ("issuesPercentage", JNum 12)];
                           JObj [("grade", JNum 80);
                                 ("issuesPercentage", JNum 0)] ])]))])
  = Some (Ok (Some
       {| grade := 87.5%float;
          grade_letter := "B";
          code_coverage := 100%float;
          issuesPercentage := 56%float;
          complexFilesPercentage := 100%float;
          duplicationPercentage := 100%float;
          totalOpen := Some (JNum 7);
          totalClosed := Some (JNum 3);
          onTrack := Some (JNum 5);
          closedOnTime := Some (JNum 2) |})).
Proof.
  pose proof (two_records_averages sample_runtime [sample_instance]
                "dummyComponentKey" (Some "default") sample_instance
                [ ("totalOpen", JNum 7); ("totalClosed", JNum 3);
                  ("onTrack", JNum 5); ("closedOnTime", JNum 2) ]
                eq_refl) as (Htwo & Hrule & _).
  split; [exact Htwo|].
  apply (Hrule [ JObj [("grade", JNum 95); ("issuesPercentage", JNum 12)];
                 JObj [("grade", JNum 80); ("issuesPercentage", JNum 0)] ]).
  - reflexivity.
  - repeat constructor; try discriminate;
      intros field [<- | [<- | [<- | [<- | [<- | []]]]]]; reflexivity.
Defined.

(** X11: a [null] element in the analysis array is not skipped: with the
    instance resolved, a truthy first body, and records before the [null]
    whose metrics are plain, [getFindings] throws the [TypeError] of
    reading [grade] of [null], whatever the elements after it and the
    first body hold. *)
Theorem getFindings_throws_on_null_record
  (rt : runtime) (this : DefaultCodacyInfoProvider.t)
  (componentKey : string) (instanceName : option string)
  (instance : CodacyInstanceConfig)
  (security analysis : json) (before after : list json)
  (rest : list http_outcome) :
  CodacyConfig.getInstanceConfig this instanceName = Ok instance ->
  truthy (Some security) = true ->
  get_own analysis "data" = Some (JArr (before ++ JNull :: after)) ->
  (N.of_nat (length (before ++ JNull :: after)) < 4294967295)%N ->
  Forall plain_record before ->
  snd (exec (getFindings rt this componentKey instanceName)
         (Response 200 (Some security) :: Response 200 (Some analysis)
          :: rest))
  = Some (Throw (TypeError
       "Cannot read properties of null (reading 'grade')")).
Proof.
  intros Hres Hsec Hdata Hlen Hplain.
  rewrite (getFindings_resolved rt _ _ _ _ Hres).
  rewrite exec_security_ok. cbn [snd]. rewrite exec_analysis_ok, Hsec.
  apply data_member_object in Hdata as (ma & -> & Hdata).
  cbn [truthy negb get get_own]. rewrite Hdata. cbn [truthy negb].
  unfold summarize. rewrite (for_in_array rt _ _ Hlen).
  rewrite add_records_app. unfold initial_totals.
  rewrite (add_records_plain rt before _ _ _ _ _ Hplain).
  cbn [result_bind]. rewrite add_records_null. reflexivity.
Qed.

Lemma getFindings_throws_on_null_record_witness :
  snd (exec (getFindings sample_runtime [sample_instance]
               "dummyComponentKey" None)
         [Response 200 (Some sample_security);
          Response 200 (Some (JObj [("data", JArr [full_record; JNull])]))])
  = Some (Throw (TypeError
       "Cannot read properties of null (reading 'grade')")).
Proof.
  apply (getFindings_throws_on_null_record sample_runtime [sample_instance]
           "dummyComponentKey" None sample_instance sample_security
           (JObj [("data", JArr [full_record; JNull])])
           [full_record] [] []).
  - reflexivity.
  - reflexivity.
  - reflexivity.
  - reflexivity.
  - repeat constructor; try discriminate.
    intros field [<- | [<- | [<- | [<- | [<- | []]]]]]; reflexivity.
Defined.

(** X12: on an analysis array of records whose five metrics are each
    absent, [null], a boolean or a number, every average is the sum of the
    contributions of its field, taken from 0 in array order, divided by the
    length of the array; a number contributes itself unless it is 0 or NaN,
    [true] contributes 1, and every other value contributes 100. The letter
    is that of the grade average and the four counters are read from the
    [data] of the first body. *)
Theorem getFindings_averages
  (rt : runtime) (this : DefaultCodacyInfoProvider.t)
  (componentKey : string) (instanceName : option string)
  (instance : CodacyInstanceConfig)
  (security security_data analysis : json) (items : list json) :
  CodacyConfig.getInstanceConfig this instanceName = Ok instance ->
  get_own security "data" = Some security_data ->
  security_data <> JNull ->
  get_own analysis "data" = Some (JArr items) ->
  (N.of_nat (length items) < 4294967295)%N ->
  Forall plain_record items ->
  let average field :=
    (metric_sum field items / float_of_nat (length items))%float in
  snd (exec (getFindings rt this componentKey instanceName)
         [Response 200 (Some security); Response 200 (Some analysis)])
  = Some (Ok (Some
       {| grade := average "grade";
          grade_letter := calculate_grade (average "grade");
          code_coverage := average "coveragePercentageWithDecimals";
          issuesPercentage := average "issuesPercentage";
          complexFilesPercentage := average "complexFilesPercentage";
          duplicationPercentage := average "duplicationPercentage";
          totalOpen := get_own security_data "totalOpen";
          totalClosed := get_own security_data "totalClosed";
          onTrack := get_own security_data "onTrack";
          closedOnTime := get_own security_data "closedOnTime" |})).
Proof.
  intros Hres Hsec Hnull Hdata Hlen Hplain average.
  rewrite (getFindings_resolved rt _ _ _ _ Hres).
  rewrite exec_security_ok. cbn [snd]. rewrite exec_analysis_ok.
  apply data_member_object in Hsec as (ms & -> & Hsec).
  apply data_member_object in Hdata as (ma & -> & Hdata).
  cbn [truthy negb get get_own]. rewrite Hdata. cbn [truthy negb].
  unfold summarize. rewrite (for_in_array rt items _ Hlen).
  unfold initial_totals. rewrite (add_records_plain rt items _ _ _ _ _ Hplain).
  cbn [result_bind get get_own]. rewrite String.eqb_refl, Hsec.
  destruct security_data; try contradiction; reflexivity.
Qed.

Lemma getFindings_averages_witness :
  snd (exec (getFindings sample_runtime [sample_instance]
               "dummyComponentKey" None)
         [Response 200 (Some sample_security);
          Response 200 (Some
            (JObj [("data",
                    JArr [ JObj [("grade", JNum 85);
                                 ("issuesPercentage", JNum 12)];
                           JObj [("grade", JNum 70);
                                 ("issuesPercentage", JNull)] ])]))])
  = Some (Ok (Some
       {| grade := 77.5%float;
          grade_letter := "C";
          code_coverage := 100%float;
          issuesPercentage := 56%float;
          complexFilesPercentage := 100%float;
          duplicationPercentage := 100%float;
          totalOpen := Some (JNum 7);
          totalClosed := Some (JNum 3);
          onTrack := Some (JNum 5);
          closedOnTime := Some (JNum 2) |})).
Proof.
  apply (getFindings_averages sample_runtime [sample_instance]
           "dummyComponentKey" None sample_instance sample_security
           (JObj [ ("totalOpen", JNum 7); ("totalClosed", JNum 3);
                   ("onTrack", JNum 5); ("closedOnTime", JNum 2) ])
           (JObj [("data",
                   JArr [ JObj [("grade", JNum 85);
                                ("issuesPercentage", JNum 12)];
                          JObj [("grade", JNum 70);
                                ("issuesPercentage", JNull)] ])])
           [ JObj [("grade", JNum 85); ("issuesPercentage", JNum 12)];
             JObj [("grade", JNum 70); ("issuesPercentage", JNull)] ]).
  - reflexivity.
  - reflexivity.
  - discriminate.
  - reflexivity.
  - reflexivity.
  - repeat constructor; try discriminate;
      intros field [<- | [<- | [<- | [<- | [<- | []]]]]]; reflexivity.
Defined.

(** X13: a [data] member that is truthy but not an array is not treated as
    missing: for [true], a number other than 0 and NaN, or an empty object,
    the loop runs no turn, [data.length] is [undefined], and [getFindings]
    returns a summary whose five averages are NaN with the letter F. *)
Theorem getFindings_nan_on_non_array_data
  (rt : runtime) (this : DefaultCodacyInfoProvider.t)
  (componentKey : string) (instanceName : option string)
  (instance : CodacyInstanceConfig)
  (security security_data analysis data : json) :
  CodacyConfig.getInstanceConfig this instanceName = Ok instance ->
  get_own security "data" = Some security_data ->
  security_data <> JNull ->
  get_own analysis "data" = Some data ->
  data = JBool true \/
  (exists x, data = JNum x /\ truthy (Some (JNum x)) = true) \/
  data = JObj [] ->
  snd (exec (getFindings rt this componentKey instanceName)
         [Response 200 (Some security); Response 200 (Some analysis)])
  = Some (Ok (Some
       {| grade := PrimFloat.nan;
          grade_letter := "F";
          code_coverage := PrimFloat.nan;
          issuesPercentage := PrimFloat.nan;
          complexFilesPercentage := PrimFloat.nan;
          duplicationPercentage := PrimFloat.nan;
          totalOpen := get_own security_data "totalOpen";
          totalClosed := get_own security_data "totalClosed";
          onTrack := get_own security_data "onTrack";
          closedOnTime := get_own security_data "closedOnTime" |})).
Proof.
  intros Hres Hsec Hnull Hdata Hshape.
  rewrite (getFindings_resolved rt _ _ _ _ Hres).
  rewrite exec_security_ok. cbn [snd]. rewrite exec_analysis_ok.
  apply data_member_object in Hsec as (ms & -> & Hsec).
  apply data_member_object in Hdata as (ma & -> & Hdata).
  cbn [truthy negb get get_own]. rewrite Hdata.
  destruct Hshape as [-> | [(x & -> & Hx) | ->]].
  - unfold summarize. cbn. rewrite Hsec.
    destruct security_data; try contradiction; reflexivity.
  - rewrite Hx. unfold summarize.
    cbn [negb for_in_keys for_in result_bind get get_own]. rewrite Hsec.
    destruct security_data; try contradiction; reflexivity.
  - unfold summarize. cbn. rewrite Hsec.
    destruct security_data; try contradiction; reflexivity.
Qed.

Lemma getFindings_nan_on_non_array_data_witness :
  snd (exec (getFindings sample_runtime [sample_instance]
               "dummyComponentKey" None)
         [Response 200 (Some sample_security);
          Response 200 (Some (JObj [("data", JNum 5)]))])
  = Some (Ok (Some
       {| grade := PrimFloat.nan;
          grade_letter := "F";
          code_coverage := PrimFloat.nan;
          issuesPercentage := PrimFloat.nan;
          complexFilesPercentage := PrimFloat.nan;
          duplicationPercentage := PrimFloat.nan;
          totalOpen := Some (JNum 7);
          totalClosed := Some (JNum 3);
          onTrack := Some (JNum 5);
          closedOnTime := Some (JNum 2) |})).
Proof.
  apply (getFindings_nan_on_non_array_data sample_runtime [sample_instance]
           "dummyComponentKey" None sample_instance sample_security
           (JObj [ ("totalOpen", JNum 7); ("totalClosed", JNum 3);
                   ("onTrack", JNum 5); ("closedOnTime", JNum 2) ])
           (JObj [("data", JNum 5)]) (JNum 5)).
  - reflexivity.
  - reflexivity.
  - discriminate.
  - reflexivity.
  - right. left. exists 5%float. split; reflexivity.
Defined.

(** X14: a summary is only ever returned after two calls that both
    answered 200: the first body has a [data] member that is not [null],
    from which the four counters of the summary are read, the second has a
    truthy [data] member, the letter of the summary is that of its grade,
    and exactly the two requests were issued. *)
Theorem getFindings_summary_inversion
  (rt : runtime) (this : DefaultCodacyInfoProvider.t)
  (componentKey : string) (instanceName : option string)
  (outcomes : list http_outcome) (summary : metrics_general) :
  snd (exec (getFindings rt this componentKey instanceName) outcomes)
  = Some (Ok (Some summary)) ->
  exists instance security security_data analysis data rest,
    CodacyConfig.getInstanceConfig this instanceName = Ok instance /\
    outcomes = Response 200 (Some security)
               :: Response 200 (Some analysis) :: rest /\
    get_own security "data" = Some security_data /\
    security_data <> JNull /\
    get_own analysis "data" = Some data /\
    truthy (Some data) = true /\
    grade_letter summary = calculate_grade (grade summary) /\
    totalOpen summary = get_own security_data "totalOpen" /\
    totalClosed summary = get_own security_data "totalClosed" /\
    onTrack summary = get_own security_data "onTrack" /\
    closedOnTime summary = get_own security_data "closedOnTime" /\
    fst (exec (getFindings rt this componentKey instanceName) outcomes)
    = findings_requests instance componentKey.
Proof.
  destruct (CodacyConfig.getInstanceConfig this instanceName)
    as [instance|e] eqn:Hres;
    [|rewrite (getFindings_unresolved rt _ _ _ _ Hres); discriminate].
  rewrite (getFindings_resolved rt _ _ _ _ Hres).
  destruct outcomes as [|[m1|status1 body1] outcomes]; try discriminate.
  destruct (status1 =? 200)%Z eqn:E1;
    [|apply Z.eqb_neq in E1; rewrite (exec_security_failed rt _ _ _ _ _ E1);
      discriminate].
  apply Z.eqb_eq in E1. subst status1.
  destruct body1 as [security|]; [|discriminate].
  rewrite exec_security_ok. cbn [fst snd].
  destruct (truthy (Some security)) eqn:Hsec;
    [|unfold after_security; rewrite Hsec; discriminate].
  destruct outcomes as [|[m2|status2 body2] rest];
    try (unfold after_security; rewrite Hsec; discriminate).
  destruct (status2 =? 200)%Z eqn:E2;
    [|apply Z.eqb_neq in E2; rewrite (exec_analysis_failed rt _ _ _ _ _ E2);
      discriminate].
  apply Z.eqb_eq in E2. subst status2.
  destruct body2 as [analysis|];
    [|unfold after_security; rewrite Hsec; discriminate].
  rewrite exec_analysis_ok, Hsec. cbn [negb].
  destruct (truthy (Some analysis)) eqn:Hana; cbn [negb]; [|discriminate].
  assert (Hget : get (Some analysis) "data" = Ok (get_own analysis "data"))
    by (destruct analysis; try reflexivity; discriminate Hana).
  rewrite Hget.
  destruct (get_own analysis "data") as [data|] eqn:Hdata;
    [|discriminate].
  destruct (truthy (Some data)) eqn:Htruthy; cbn [negb]; [|discriminate].
  destruct (summarize rt (Some security) (Some data)) as [s|e] eqn:Hsum;
    [|discriminate].
  intros [= <-].
  revert Hsum. unfold summarize.
  destruct (for_in rt _ _ _) as [sums|e]; [|discriminate].
  cbn [result_bind].
  assert (Hlen : get (Some data) "length" = Ok (get_own data "length"))
    by (destruct data; try reflexivity; discriminate Htruthy).
  rewrite Hlen. cbn [result_bind].
  do 5 (match goal with
        | |- context [result_bind (js_div rt ?a ?b)] =>
            destruct (js_div rt a b) as [?|?]; cbn [result_bind];
            [|discriminate]
        end).
  assert (Hsd : get (Some security) "data" = Ok (get_own security "data"))
    by (destruct security; try reflexivity; discriminate Hsec).
  rewrite Hsd. cbn [result_bind].
  destruct (get_own security "data") as [security_data|] eqn:Hsdata;
    [|discriminate].
  destruct (json_is_null security_data) eqn:Hnull.
  - destruct security_data; try discriminate Hnull. discriminate.
  - assert (Hcounter : forall k, get (Some security_data) k
                                 = Ok (get_own security_data k))
      by (intros k; destruct security_data; try reflexivity;
          discriminate Hnull).
    rewrite !Hcounter. cbn [result_bind]. intros [= <-].
    exists instance, security, security_data, analysis, data, rest.
    split; [reflexivity|]. split; [reflexivity|].
    split; [exact Hsdata|].
    split; [intros ->; discriminate Hnull|].
    split; [exact Hdata|]. split; [exact Htruthy|].
    repeat (split; [reflexivity|]).
    unfold findings_requests, after_security, callApi. rewrite Hsec.
    cbn [negb bind exec fst]. change (200 =? 200)%Z with true.
    cbn [bind]. rewrite Hana. cbn [negb]. rewrite Hget. cbn [lift bind].
    rewrite Htruthy. cbn [negb].
    destruct (summarize rt (Some security) (Some data)); reflexivity.
Qed.

Lemma getFindings_summary_inversion_witness :
  exists instance security security_data analysis data rest,
    CodacyConfig.getInstanceConfig [sample_instance] None = Ok instance /\
    [Response 200 (Some sample_security);
     Response 200 (Some two_records_analysis)]
    = Response 200 (Some security) :: Response 200 (Some analysis) :: rest /\
    get_own security "data" = Some security_data /\
    security_data <> JNull /\
    get_own analysis "data" = Some data /\
    truthy (Some data) = true /\
    "A" = calculate_grade 100 /\
    Some (JNum 7) = get_own security_data "totalOpen" /\
    Some (JNum 3) = get_own security_data "totalClosed" /\
    Some (JNum 5) = get_own security_data "onTrack" /\
    Some (JNum 2) = get_own security_data "closedOnTime" /\
    fst (exec (getFindings sample_runtime [sample_instance]
                 "dummyComponentKey" None)
           [Response 200 (Some sample_security);
            Response 200 (Some two_records_analysis)])
    = findings_requests instance "dummyComponentKey".
Proof.
  apply (getFindings_summary_inversion sample_runtime [sample_instance]
           "dummyComponentKey" None
           [Response 200 (Some sample_security);
            Response 200 (Some two_records_analysis)]
           {| grade := 100%float;
              grade_letter := "A";
              code_coverage := 100%float;
              issuesPercentage := 100%float;
              complexFilesPercentage := 100%float;
              duplicationPercentage := 100%float;
              totalOpen := Some (JNum 7);
              totalClosed := Some (JNum 3);
              onTrack := Some (JNum 5);
              closedOnTime := Some (JNum 2) |}).
  reflexivity.
Defined.

(** ** Monotonicity of the letter *)

Section LetterOrder.

(** Equal values compare alike with any third. *)
Lemma SFcompare_eq_trans (x a b : spec_float) :
  SFcompare x a = Some Eq -> SFcompare x b = SFcompare a b.
Proof.
  destruct x as [sx|sx| |sx mx ex], a as [sa|sa| |sa ma ea]; simpl;
    try discriminate;
    try (destruct sx; discriminate);
    try (destruct sa; discriminate).
  - intros _. destruct b; reflexivity.
  - destruct sx, sa; try discriminate; reflexivity.
  - repeat match goal with
      | |- context [PosDef.Pos.compare_cont Eq ?p ?q] =>
          change (PosDef.Pos.compare_cont Eq p q) with (Pos.compare p q)
      end.
    destruct sx, sa; try discriminate;
      destruct (Z.compare_spec ex ea); try discriminate;
      destruct (Pos.compare_spec mx ma); try discriminate;
      subst; reflexivity.
Qed.

(** [c <= x] and [x <= y] give [c <= y]. *)
Lemma leb_trans (c x y : float) :
  (c <=? x)%float = true -> (x <=? y)%float = true ->
  (c <=? y)%float = true.
Proof.
  rewrite !leb_spec. unfold SFleb. intros Hcx Hxy.
  destruct (SFcompare (Prim2SF c) (Prim2SF x)) as [[]|] eqn:E1;
    try discriminate.
  - rewrite (SFcompare_eq_trans _ _ _ E1). exact Hxy.
  - rewrite (SFcompare_lt_le_trans _ _ _ E1); [reflexivity|].
    destruct (SFcompare (Prim2SF x) (Prim2SF y)) as [[]|];
      try discriminate; auto.
Qed.

End LetterOrder.

(** X15: the letter never gets worse when the grade grows: for [g1 <= g2]
    the letter of [g2] ranks at least as high as the letter of [g1], with
    A above B above C above D above F. *)
Theorem calculate_grade_monotone (g1 g2 : float) :
  (g1 <=? g2)%float = true ->
  letter_rank (calculate_grade g1) <= letter_rank (calculate_grade g2).
Proof.
  intros Hle.
  assert (up : forall c, (c <=? g1)%float = true -> (c <=? g2)%float = true)
    by (intros c Hc; exact (leb_trans c g1 g2 Hc Hle)).
  unfold calculate_grade.
  destruct (90 <=? g1)%float eqn:A1.
  { rewrite (up _ A1). apply le_n. }
  destruct (80 <=? g1)%float eqn:B1.
  { rewrite (up _ B1). destruct (90 <=? g2)%float; cbn; lia. }
  destruct (70 <=? g1)%float eqn:C1.
  { rewrite (up _ C1).
    destruct (90 <=? g2)%float, (80 <=? g2)%float; cbn; lia. }
  destruct (60 <=? g1)%float eqn:D1.
  { rewrite (up _ D1).
    destruct (90 <=? g2)%float, (80 <=? g2)%float, (70 <=? g2)%float;
      cbn; lia. }
  cbn. lia.
Qed.

Lemma calculate_grade_monotone_witness :
  letter_rank (calculate_grade 79.5) <= letter_rank (calculate_grade 80).
Proof.
  apply calculate_grade_monotone. reflexivity.
Defined.

(** ** The route *)

(** X16: the handler of [/findings] checks [componentKey] before anything
    else: when it is missing or empty the handler throws the [InputError],
    whatever the instance name and the registry, and [getFindings] is not
    called; otherwise it sends what [getFindings] resolves to, and an
    instance name that is missing, empty or "default" gives the same
    computation. *)
Theorem findings_route_validation
  (rt : runtime) (provider : DefaultCodacyInfoProvider.t) :
  (forall componentKey instanceKey,
      truthy_str componentKey = false ->
      Router.findings rt provider componentKey instanceKey
      = Router.InputError
          "ComponentKey must be provided as a single string.") /\
  (forall key instanceKey,
      key <> "" ->
      exists log,
        Router.findings rt provider (Some key) instanceKey
        = Router.Answer log (getFindings rt provider key instanceKey)) /\
  (forall key,
      getFindings rt provider key (Some "")
      = getFindings rt provider key None /\
      getFindings rt provider key (Some "default")
      = getFindings rt provider key None).
Proof.
  split; [|split].
  - intros [key|] instanceKey H; [|reflexivity].
    unfold Router.findings. rewrite H. reflexivity.
  - intros key instanceKey H. unfold Router.findings.
    rewrite (truthy_str_nonempty key H). eexists. reflexivity.
  - intros key. split; reflexivity.
Qed.

Lemma findings_route_validation_witness :
  Router.findings sample_runtime [] (Some "") (Some "unknown")
  = Router.InputError "ComponentKey must be provided as a single string."
  /\
  exists log,
    Router.findings sample_runtime [sample_instance]
      (Some "dummyComponentKey") None
    = Router.Answer log
        (getFindings sample_runtime [sample_instance] "dummyComponentKey"
           None).
Proof.
  pose proof (findings_route_validation sample_runtime []) as [H1 _].
  pose proof (findings_route_validation sample_runtime [sample_instance])
    as (_ & H2 & _).
  split.
  - apply H1. reflexivity.
  - apply H2. discriminate.
Defined.
